(** * mmuko-os: the boot image generator [build_img.py]

    A shallow embedding of [create_boot_image], [verify_image], [print_info]
    and the command-line block of [build_img.py], over a small model of the
    Python runtime they run on: exceptions, the recursion limit, a
    POSIX-like file tree and standard output.

    The file tree holds directories and regular files only: there are no
    device nodes, FIFOs or symbolic links, no permissions, and a write
    never fails for lack of space.  The limits on names and paths are those
    of Linux.

    Python [bytes] and [bytearray] are [list byte]; a Python [int] is [Z];
    a Python [str] is a [string] holding the UTF-8 encoding of the text
    (paths, and everything that is printed). *)

From Stdlib Require Import ZArith Lia List Ascii String.
From Stdlib Require Import Strings.Byte.
From stdpp Require Import base gmap strings list.

Local Open Scope Z_scope.

(** ** Exceptions and the runtime monad *)

Inductive errno : Set :=
  ENOENT | EEXIST | ENOTDIR | EISDIR | EBADF | ENAMETOOLONG.

(** [OSError ENOENT] is Python's [FileNotFoundError], [OSError EEXIST] is
    [FileExistsError], [OSError ENOTDIR] is [NotADirectoryError] and
    [OSError EISDIR] is [IsADirectoryError].  [ValueError] is what the
    file functions raise for a path with an embedded null byte, and what
    a bytearray raises for a value outside range(256). *)
Inductive exn : Set :=
| OSError (e : errno)
| IndexError
| ValueError
| UnicodeDecodeError
| RecursionError
| SystemExit (code : Z).

Inductive outcome (A : Type) : Type :=
| Returns (a : A)
| Raises (e : exn).
Arguments Returns {A} a.
Arguments Raises {A} e.

(** A node of the file tree. *)
Inductive node : Type :=
| Dir
| File (data : list byte).

(** A location is the list of the names from the root down to the node,
    innermost name first; the root is [].  [recursion_room] is what the
    recursion limit of the interpreter leaves to [os.makedirs]: the number
    of calls of it that can still be nested in a first one. *)
Record world : Type := World {
  cwd : list string;
  tree : gmap (list string) node;
  stdout : list string;
  recursion_room : nat
}.

Definition M (A : Type) : Type := world -> world * outcome A.

Definition ret {A} (a : A) : M A := fun w => (w, Returns a).

Definition raise {A} (e : exn) : M A := fun w => (w, Raises e).

Definition bind {A B} (m : M A) (k : A -> M B) : M B :=
  fun w =>
    match m w with
    | (w', Returns a) => k a w'
    | (w', Raises e) => (w', Raises e)
    end.

(** [try: m except e: h e]; the handler returns None for an exception it
    does not catch. *)
Definition try_except {A} (m : M A) (h : exn -> option (M A)) : M A :=
  fun w =>
    match m w with
    | (w', Returns a) => (w', Returns a)
    | (w', Raises e) =>
        match h e with
        | Some k => k w'
        | None => (w', Raises e)
        end
    end.

Notation "'let!' x ':=' m 'in' k" := (bind m (fun x => k))
  (at level 10, x name, m at level 100, k at level 200).
Notation "'do!' m 'in' k" := (bind m (fun _ => k))
  (at level 10, m at level 100, k at level 200).

(** ** Python [str] operations used by [posixpath] *)

Definition truthy (s : string) : bool :=
  match s with
  | EmptyString => false
  | String _ _ => true
  end.

(** [s.rfind(c)]: the highest index of [c] in [s], or -1. *)
Fixpoint rfind_char (c : ascii) (s : string) : Z :=
  match s with
  | EmptyString => -1
  | String a s' =>
      let k := rfind_char c s' in
      if 0 <=? k then k + 1
      else if Ascii.eqb a c then 0 else -1
  end.

(** [s[:n]] and [s[n:]] for a non-negative [n]. *)
Fixpoint str_take (n : nat) (s : string) : string :=
  match n, s with
  | O, _ => EmptyString
  | S _, EmptyString => EmptyString
  | S n', String a s' => String a (str_take n' s')
  end.

Fixpoint str_drop (n : nat) (s : string) : string :=
  match n, s with
  | O, _ => s
  | S _, EmptyString => EmptyString
  | S n', String _ s' => str_drop n' s'
  end.

(** [s == c * len(s)] *)
Fixpoint all_char (c : ascii) (s : string) : bool :=
  match s with
  | EmptyString => true
  | String a s' => Ascii.eqb a c && all_char c s'
  end.

(** [s.rstrip(c)] *)
Fixpoint rstrip_char (c : ascii) (s : string) : string :=
  match s with
  | EmptyString => EmptyString
  | String a s' =>
      match rstrip_char c s' with
      | EmptyString => if Ascii.eqb a c then EmptyString else String a EmptyString
      | r => String a r
      end
  end.

Definition sep : ascii := "/"%char.

(** [posixpath.split]:
      i = p.rfind(sep) + 1
      head, tail = p[:i], p[i:]
      if head and head != sep*len(head): head = head.rstrip(sep)
      return head, tail *)
Definition path_split (p : string) : string * string :=
  let i := rfind_char sep p + 1 in
  let head := str_take (Z.to_nat i) p in
  let tail := str_drop (Z.to_nat i) p in
  let head :=
    if truthy head && negb (all_char sep head) then rstrip_char sep head
    else head in
  (head, tail).

(** [posixpath.dirname]: the head of [posixpath.split]. *)
Definition path_dirname (p : string) : string :=
  let i := rfind_char sep p + 1 in
  let head := str_take (Z.to_nat i) p in
  if truthy head && negb (all_char sep head) then rstrip_char sep head
  else head.

(** ** The file tree and the system calls *)

(** The names between the slashes of a path; an empty name stands for a
    leading, doubled or trailing slash. *)
Fixpoint components (p : string) : list string :=
  match p with
  | EmptyString => [EmptyString]
  | String a p' =>
      if Ascii.eqb a sep then EmptyString :: components p'
      else
        match components p' with
        | c :: cs => String a c :: cs
        | [] => [String a EmptyString]
        end
  end.

Definition is_absolute (p : string) : bool :=
  match p with
  | String a _ => Ascii.eqb a sep
  | EmptyString => false
  end.

(** The longest name and the length that a path must stay under, in
    bytes (Linux: NAME_MAX, and PATH_MAX that counts the final null). *)
Definition NAME_MAX : Z := 255.
Definition PATH_MAX : Z := 4096.

(** The path walk of the kernel: every name is looked up in a directory
    that exists; the last name itself need not exist, but no name is
    longer than [NAME_MAX]. *)
Fixpoint walk (t : gmap (list string) node) (cur : list string)
    (cs : list string) : outcome (list string) :=
  match cs with
  | [] => Returns cur
  | c :: rest =>
      match t !! cur with
      | Some Dir =>
          if decide (c = EmptyString) then walk t cur rest
          else if decide (c = "."%string) then walk t cur rest
          else if decide (c = ".."%string) then walk t (List.tl cur) rest
          else if NAME_MAX <? Z.of_nat (String.length c)
               then Raises (OSError ENAMETOOLONG)
          else walk t (c :: cur) rest
      | Some (File _) => Raises (OSError ENOTDIR)
      | None => Raises (OSError ENOENT)
      end
  end.

(** A null byte in a path. *)
Fixpoint has_nul (p : string) : bool :=
  match p with
  | EmptyString => false
  | String a p' => Ascii.eqb a "000"%char || has_nul p'
  end.

(** Where a path leads.  Python refuses a path with an embedded null byte
    before any system call (ValueError); the kernel refuses the empty
    path and a path of [PATH_MAX] bytes or more. *)
Definition resolve (w : world) (p : string) : outcome (list string) :=
  if has_nul p then Raises ValueError
  else if negb (truthy p) then Raises (OSError ENOENT)
  else if PATH_MAX <=? Z.of_nat (String.length p)
       then Raises (OSError ENAMETOOLONG)
  else walk (tree w) (if is_absolute p then [] else cwd w) (components p).

Definition set_tree (w : world) (t : gmap (list string) node) : world :=
  World (cwd w) t (stdout w) (recursion_room w).

(** [os.mkdir(path)] *)
Definition os_mkdir (p : string) : M unit := fun w =>
  match resolve w p with
  | Raises e => (w, Raises e)
  | Returns loc =>
      match tree w !! loc with
      | Some _ => (w, Raises (OSError EEXIST))
      | None =>
          match tree w !! List.tl loc with
          | Some Dir => (set_tree w (<[loc := Dir]> (tree w)), Returns tt)
          | Some (File _) => (w, Raises (OSError ENOTDIR))
          | None => (w, Raises (OSError ENOENT))
          end
      end
  end.

(** [os.stat(path)], as far as the kind of the node. *)
Definition os_stat (p : string) : M node := fun w =>
  match resolve w p with
  | Raises e => (w, Raises e)
  | Returns loc =>
      match tree w !! loc with
      | Some n => (w, Returns n)
      | None => (w, Raises (OSError ENOENT))
      end
  end.

(** [open(path, 'wb')]: the file is created, or truncated when it exists;
    the file object is modelled by the location it is open on. *)
Definition open_wb (p : string) : M (list string) := fun w =>
  match resolve w p with
  | Raises e => (w, Raises e)
  | Returns loc =>
      match tree w !! loc with
      | Some Dir => (w, Raises (OSError EISDIR))
      | Some (File _) => (set_tree w (<[loc := File []]> (tree w)), Returns loc)
      | None =>
          match tree w !! List.tl loc with
          | Some Dir => (set_tree w (<[loc := File []]> (tree w)), Returns loc)
          | Some (File _) => (w, Raises (OSError ENOTDIR))
          | None => (w, Raises (OSError ENOENT))
          end
      end
  end.

(** [f.write(data)] on a file opened by [open_wb]: the bytes are appended,
    their number is returned. *)
Definition file_write (f : list string) (data : list byte) : M Z := fun w =>
  match tree w !! f with
  | Some (File old) =>
      (set_tree w (<[f := File (old ++ data)]> (tree w)),
       Returns (Z.of_nat (length data)))
  | _ => (w, Raises (OSError EBADF))
  end.

(** [open(path, 'rb')] *)
Definition open_rb (p : string) : M (list string) := fun w =>
  match resolve w p with
  | Raises e => (w, Raises e)
  | Returns loc =>
      match tree w !! loc with
      | Some Dir => (w, Raises (OSError EISDIR))
      | Some (File _) => (w, Returns loc)
      | None => (w, Raises (OSError ENOENT))
      end
  end.

(** [f.read()] on a file just opened by [open_rb]: the whole content. *)
Definition file_read (f : list string) : M (list byte) := fun w =>
  match tree w !! f with
  | Some (File data) => (w, Returns data)
  | _ => (w, Raises (OSError EBADF))
  end.

(** [print(s)]: the text and a newline are written to standard output. *)
Definition print (s : string) : M unit := fun w =>
  (World (cwd w) (tree w) (stdout w ++ [s +:+ String "010"%char EmptyString])
     (recursion_room w),
   Returns tt).

(** ** [os.path.exists], [os.path.isdir] and [os.makedirs] *)

(** [os.path.exists]: False when [os.stat] raises OSError or ValueError. *)
Definition path_exists (p : string) : M bool :=
  try_except (do! os_stat p in ret true)
    (fun e => match e with OSError _ | ValueError => Some (ret false) | _ => None end).

Definition path_isdir (p : string) : M bool :=
  try_except
    (let! st := os_stat p in
     ret (match st with Dir => true | File _ => false end))
    (fun e => match e with OSError _ | ValueError => Some (ret false) | _ => None end).

Definition curdir : string := ".".

(** [os.makedirs(name, exist_ok=exist_ok)]:
      head, tail = path.split(name)
      if not tail: head, tail = path.split(head)
      if head and tail and not path.exists(head):
          try: makedirs(head, exist_ok=exist_ok)
          except FileExistsError: pass
          if tail == curdir: return
      try: mkdir(name, mode)
      except OSError:
          if not exist_ok or not path.isdir(name): raise
    The recursion is on a proper prefix of [name].  [fuel] is the number
    of nested calls that the recursion limit still allows, this one
    included: without any, the call raises RecursionError, before it has
    made a directory. *)
Fixpoint makedirs_fuel (fuel : nat) (name : string) (exist_ok : bool) : M unit :=
  match fuel with
  | O => raise RecursionError
  | S fuel' =>
      let '(head, tail) := path_split name in
      let '(head, tail) :=
        if negb (truthy tail) then path_split head else (head, tail) in
      let make :=
        try_except (os_mkdir name)
          (fun e =>
             match e with
             | OSError _ =>
                 Some (if negb exist_ok then raise e
                       else let! d := path_isdir name in
                            if negb d then raise e else ret tt)
             | _ => None
             end) in
      let! missing :=
        (if truthy head && truthy tail
         then let! ex := path_exists head in ret (negb ex)
         else ret false) in
      if missing : bool then
        do! try_except (makedirs_fuel fuel' head exist_ok)
              (fun e => match e with
                        | OSError EEXIST => Some (ret tt)
                        | _ => None
                        end) in
        if decide (tail = curdir) then ret tt else make
      else make
  end.

Definition makedirs (name : string) (exist_ok : bool) : M unit := fun w =>
  makedirs_fuel (S (recursion_room w)) name exist_ok w.

(** ** Python [bytes] and [bytearray] operations *)

#[global] Instance byte_eq_decision : EqDecision byte := Byte.byte_eq_dec.

Definition int_of_byte (b : byte) : Z := Z.of_N (Byte.to_N b).

Definition len {A} (l : list A) : Z := Z.of_nat (length l).

(** [bytearray(n)]: [n] zero bytes. *)
Definition bytearray (n : Z) : list byte := repeat x00 (Z.to_nat n).

(** A bytes literal of printable characters. *)
Definition bytes_lit (s : string) : list byte := String.list_byte_of_string s.

(** The bound of a slice, as Python clamps it. *)
Definition slice_index (n i : Z) : Z :=
  if i <? 0 then Z.max 0 (i + n) else Z.min i n.

(** [data[i:j]] *)
Definition slice (data : list byte) (i j : Z) : list byte :=
  let i' := slice_index (len data) i in
  let j' := slice_index (len data) j in
  take (Z.to_nat (j' - i')) (drop (Z.to_nat i') data).

(** [buf[i:j] = v] on a bytearray: the slice is replaced by [v], whatever
    the length of [v]. *)
Definition setslice (buf : list byte) (i j : Z) (v : list byte) : list byte :=
  let i' := slice_index (len buf) i in
  let j' := Z.max i' (slice_index (len buf) j) in
  take (Z.to_nat i') buf ++ v ++ drop (Z.to_nat j') buf.

(** [buf[i] = v] on a bytearray. *)
Definition setitem (buf : list byte) (i v : Z) : M (list byte) :=
  let i' := if i <? 0 then i + len buf else i in
  if (i' <? 0) || (len buf <=? i') then raise IndexError
  else
    match Byte.of_N (Z.to_N v) with
    | Some x => if v <? 0 then raise ValueError
                else ret (<[Z.to_nat i' := x]> buf)
    | None => raise ValueError
    end.

(** [data[i]]: an int. *)
Definition getitem (data : list byte) (i : Z) : M Z :=
  let i' := if i <? 0 then i + len data else i in
  if i' <? 0 then raise IndexError
  else
    match data !! Z.to_nat i' with
    | Some x => ret (int_of_byte x)
    | None => raise IndexError
    end.

Fixpoint starts_with (sub l : list byte) : bool :=
  match sub, l with
  | [], _ => true
  | _ :: _, [] => false
  | x :: sub', y :: l' => bool_decide (x = y) && starts_with sub' l'
  end.

Fixpoint find_at (sub l : list byte) (k : Z) : Z :=
  if starts_with sub l then k
  else
    match l with
    | [] => -1
    | _ :: l' => find_at sub l' (k + 1)
    end.

(** [data.find(sub, start)]: the lowest index at or after [start] where
    [sub] occurs, or -1. *)
Definition bytes_find (data sub : list byte) (start : Z) : Z :=
  if len data <? start then -1
  else
    let s := slice_index (len data) start in
    find_at sub (drop (Z.to_nat s) data) s.

(** [data.decode('ascii')] *)
Fixpoint decode_ascii_strict (data : list byte) : option string :=
  match data with
  | [] => Some EmptyString
  | x :: data' =>
      if int_of_byte x <? 128 then
        match decode_ascii_strict data' with
        | Some s => Some (String (ascii_of_byte x) s)
        | None => None
        end
      else None
  end.

Definition decode_ascii (data : list byte) : M string :=
  match decode_ascii_strict data with
  | Some s => ret s
  | None => raise UnicodeDecodeError
  end.

(** U+FFFD REPLACEMENT CHARACTER, in UTF-8. *)
Definition replacement_character : string :=
  String (ascii_of_byte xef) (String (ascii_of_byte xbf)
    (String (ascii_of_byte xbd) EmptyString)).

(** [data.decode('ascii', errors='replace')] *)
Fixpoint decode_ascii_replace (data : list byte) : string :=
  match data with
  | [] => EmptyString
  | x :: data' =>
      if int_of_byte x <? 128
      then String (ascii_of_byte x) (decode_ascii_replace data')
      else replacement_character +:+ decode_ascii_replace data'
  end.

(** ** Formatting *)

Definition digit_char (upper : bool) (d : Z) : ascii :=
  if d <? 10 then ascii_of_N (Z.to_N (48 + d))
  else ascii_of_N (Z.to_N ((if upper then 55 else 87) + d)).

Fixpoint digits (fuel : nat) (base : Z) (upper : bool) (n : Z) (acc : string)
    : string :=
  match fuel with
  | O => acc
  | S fuel' =>
      let acc' := String (digit_char upper (n mod base)) acc in
      if n / base =? 0 then acc' else digits fuel' base upper (n / base) acc'
  end.

(** The digits of a non-negative [n]; [Z.log2 n + 1] digits are enough in
    any base from 2 on. *)
Definition str_of_nonneg (base : Z) (upper : bool) (n : Z) : string :=
  digits (S (Z.to_nat (Z.log2 n))) base upper n EmptyString.

(** [str(n)], as in [f"{n}"] for an int. *)
Definition str_of_int (n : Z) : string :=
  if n <? 0 then String "-"%char (str_of_nonneg 10 false (- n))
  else str_of_nonneg 10 false n.

Fixpoint zeros (n : nat) : string :=
  match n with
  | O => EmptyString
  | S n' => String "0"%char (zeros n')
  end.

(** [f"{n:02X}"]: upper-case hexadecimal, padded with zeros after the sign
    to two characters. *)
Definition format_02X (n : Z) : string :=
  let sign := if n <? 0 then String "-"%char EmptyString else EmptyString in
  let ds := str_of_nonneg 16 true (Z.abs n) in
  sign +:+ zeros (2 - String.length sign - String.length ds)%nat +:+ ds.

Definition hex2_lower (n : Z) : string :=
  String (digit_char false (n / 16)) (String (digit_char false (n mod 16)) EmptyString).

(** One byte of [repr(data)]. *)
Definition repr_byte (quote : ascii) (x : byte) : string :=
  let c := ascii_of_byte x in
  let n := int_of_byte x in
  if Ascii.eqb c quote || Ascii.eqb c "\"%char
  then String "\"%char (String c EmptyString)
  else if n =? 9 then "\t"
  else if n =? 10 then "\n"
  else if n =? 13 then "\r"
  else if (n <? 32) || (127 <=? n) then "\x" +:+ hex2_lower n
  else String c EmptyString.

(** [repr(data)], which is also [str(data)] and [f"{data}"]: the double
    quote is used when the data holds a single quote and no double one. *)
Definition bytes_repr (data : list byte) : string :=
  let has q := existsb (fun x => Ascii.eqb (ascii_of_byte x) q) data in
  let quote :=
    if has "'"%char && negb (has "034"%char) then "034"%char else "'"%char in
  String "b"%char (String quote
    (String.concat EmptyString (map (repr_byte quote) data) +:+ String quote EmptyString)).

(** ** The program *)

Definition CR : byte := x0d.
Definition LF : byte := x0a.
Definition NUL : byte := x00.

(** UTF-8 of U+2713 CHECK MARK and of U+2717 BALLOT X. *)
Definition check_mark : string :=
  String (ascii_of_byte xe2) (String (ascii_of_byte x9c)
    (String (ascii_of_byte x93) EmptyString)).
Definition ballot_x : string :=
  String (ascii_of_byte xe2) (String (ascii_of_byte x9c)
    (String (ascii_of_byte x97) EmptyString)).

Definition newline : string := String (ascii_of_byte LF) EmptyString.

(** x86 boot code at offset 8. *)
Definition boot_code : list byte :=
  [ xfa;                    (* cli *)
    x31; xc0;               (* xor ax, ax *)
    x8e; xd8;               (* mov ds, ax *)
    x8e; xc0;               (* mov es, ax *)
    xbc; x00; x7c;          (* mov sp, 0x7C00 *)
    xbe; x60; x7c;          (* mov si, msg (0x7C60) *)
    xb4; x0e;               (* mov ah, 0x0E (teletype) *)
    xac;                    (* lodsb *)
    x08; xc0;               (* or al, al *)
    x74; x04;               (* jz done *)
    xcd; x10;               (* int 0x10 *)
    xeb; xf5;               (* jmp loop *)
    xb0; x55;               (* mov al, 0x55 (NSIGII_YES) *)
    xf4;                    (* hlt *)
    xeb; xfe ].             (* jmp $ (safety) *)

(** Boot message at offset 0x60. *)
Definition msg : list byte :=
  bytes_lit "=== MMUKO-OS RINGBOOT ===" ++ [CR; LF] ++
  bytes_lit "OBINEXUS NSIGII Verify" ++ [CR; LF] ++
  bytes_lit "[Phase 1] SPARSE" ++ [CR; LF] ++
  bytes_lit "[Phase 2] REMEMBER" ++ [CR; LF] ++
  bytes_lit "[Phase 3] ACTIVE" ++ [CR; LF] ++
  bytes_lit "[Phase 4] VERIFY" ++ [CR; LF; LF] ++
  bytes_lit "NSIGII_VERIFIED" ++ [CR; LF] ++
  bytes_lit "BOOT_SUCCESS" ++ [CR; LF; NUL].

Definition default_path : string := "img/mmuko-os.img".

(** [create_boot_image(output_path)] *)
Definition create_boot_image (output_path : string) : M string :=
  let sector := bytearray 512 in
  let sector := setslice sector 0 4 (bytes_lit "NXOB") in
  let! sector := setitem sector 4 0x01 in
  let! sector := setitem sector 5 0x00 in
  let! sector := setitem sector 6 0xFE in
  let! sector := setitem sector 7 0x01 in
  let sector := setslice sector 8 (8 + len boot_code) boot_code in
  let sector := setslice sector 0x60 (0x60 + len msg) msg in
  let! sector := setitem sector 510 0x55 in
  let! sector := setitem sector 511 0xAA in
  do! makedirs (path_dirname output_path) true in
  let! f := open_wb output_path in
  do! file_write f sector in
  ret output_path.

(** [verify_image(path)] *)
Definition verify_image (path : string) : M bool :=
  let! f := open_rb path in
  let! data := file_read f in
  if negb (len data =? 512) then
    do! print ("ERROR: Image size is " +:+ str_of_int (len data)
               +:+ " bytes (expected 512)") in
    ret false
  else
    let magic := slice data 0 4 in
    if negb (bool_decide (magic = bytes_lit "NXOB")) then
      do! print ("ERROR: RIFT magic is " +:+ bytes_repr magic
                 +:+ " (expected NXOB)") in
      ret false
    else
      let! bad :=
        (let! lo := getitem data 510 in
         if negb (lo =? 0x55) then ret true
         else let! hi := getitem data 511 in ret (negb (hi =? 0xAA))) in
      if bad : bool then
        let! lo := getitem data 510 in
        let! hi := getitem data 511 in
        do! print ("ERROR: Boot signature is " +:+ format_02X lo
                   +:+ format_02X hi +:+ " (expected 55AA)") in
        ret false
      else ret true.

(** [print_info(path)] *)
Definition print_info (path : string) : M unit :=
  let! f := open_rb path in
  let! data := file_read f in
  do! print ("Image: " +:+ path) in
  do! print ("Size: " +:+ str_of_int (len data) +:+ " bytes") in
  let! magic := decode_ascii (slice data 0 4) in
  do! print ("RIFT Magic: " +:+ magic) in
  let! version := getitem data 4 in
  do! print ("Version: " +:+ str_of_int version) in
  let! checksum := getitem data 6 in
  do! print ("Checksum: 0x" +:+ format_02X checksum) in
  let! lo := getitem data 510 in
  let! hi := getitem data 511 in
  do! print ("Boot Signature: 0x" +:+ format_02X lo +:+ format_02X hi) in
  let msg_end := bytes_find data [NUL] 0x60 in
  if 0x60 <? msg_end then
    let msg := decode_ascii_replace (slice data 0x60 msg_end) in
    print (newline +:+ "Boot Message:" +:+ newline +:+ msg)
  else ret tt.

(** The [if verify_image(output): ... else: ...] statement that ends the
    main block, for each value of its condition. *)
Definition main_report (output : string) (ok : bool) : M unit :=
  if ok then
    do! print (check_mark +:+ " Boot image created successfully") in
    do! print EmptyString in
    print_info output
  else
    do! print (ballot_x +:+ " Boot image verification failed") in
    raise (SystemExit 1).

(** The [if __name__ == "__main__":] block, run with [sys.argv = argv]. *)
Definition main (argv : list string) : M unit :=
  let output := if 1 <? len argv then nth 1 argv EmptyString else default_path in
  do! print "=== MMUKO-OS Boot Image Generator ===" in
  do! print ("Creating: " +:+ output) in
  do! create_boot_image output in
  let! ok := verify_image output in
  main_report output ok.

(** The exit status of the interpreter: 0 when the program runs to its
    end, the argument of [sys.exit], and 1 for an uncaught exception. *)
Definition exit_status {A} (r : outcome A) : Z :=
  match r with
  | Returns _ => 0
  | Raises (SystemExit code) => code
  | Raises _ => 1
  end.

(** A world to run examples in: an empty root directory, which is also
    the working directory, and nothing printed. *)
Definition empty_world : world := World [] {[ [] := Dir ]} [] 900.

(** Another one: a directory /boot that holds a one-byte file. *)
Definition boot_world : world :=
  World [] {[ [] := Dir; ["boot"%string] := Dir;
              ["sector.bin"; "boot"]%string := File [x01] ]} [] 900.

(** The layout of the boot image, region by region: header, code, message
    and signature, with zero bytes in the gaps. *)
Definition boot_image : list byte :=
  bytes_lit "NXOB" ++ [x01; x00; xfe; x01] ++ boot_code
  ++ repeat x00 (0x60 - 37) ++ msg
  ++ repeat x00 (510 - 254) ++ [x55; xaa].

(** [file_at w p data]: in [w], the path [p] leads to a regular file whose
    content is [data]. *)
Definition file_at (w : world) (p : string) (data : list byte) : Prop :=
  exists loc, resolve w p = Returns loc /\ tree w !! loc = Some (File data).

(** Only standard output differs. *)
Definition same_files (w w' : world) : Prop :=
  cwd w' = cwd w /\ tree w' = tree w.

Definition printed (w : world) (lines : list string) : world :=
  World (cwd w) (tree w) (stdout w ++ lines) (recursion_room w).

(** The three diagnostics of [verify_image]. *)
Definition size_diagnostic (data : list byte) : string :=
  "ERROR: Image size is " +:+ str_of_int (len data) +:+ " bytes (expected 512)".

Definition magic_diagnostic (data : list byte) : string :=
  "ERROR: RIFT magic is " +:+ bytes_repr (take 4 data) +:+ " (expected NXOB)".

Definition signature_diagnostic (lo hi : byte) : string :=
  "ERROR: Boot signature is " +:+ format_02X (int_of_byte lo)
  +:+ format_02X (int_of_byte hi) +:+ " (expected 55AA)".

(** The offsets that [create_boot_image] assigns to: the header, the
    code, the message and the signature. *)
Definition populated (i : nat) : bool :=
  (i <? 8)%nat
  || ((8 <=? i)%nat && (i <? 8 + length boot_code)%nat)
  || ((0x60 <=? i)%nat && (i <? 0x60 + length msg)%nat)
  || ((510 <=? i)%nat && (i <? 512)%nat).

(** [m] changes neither a file nor a directory, whatever it returns or
    raises. *)
Definition keeps_files {A} (m : M A) : Prop :=
  forall w, same_files w (m w).1.

(** A produced image whose last byte has been overwritten, and a world
    that holds it as /tmp/bad.img. *)
Definition mutated_image : list byte := <[511%nat := x00]> boot_image.

Definition mutated_world : world :=
  World ["tmp"%string]
    {[ [] := Dir; ["tmp"%string] := Dir;
       ["bad.img"; "tmp"]%string := File mutated_image ]} [] 900.

(** What [print(s)] writes. *)
Definition line (s : string) : string := s +:+ newline.

(** What [print_info] prints last for the message bytes [text]. *)
Definition message_line (text : list byte) : string :=
  line (newline +:+ "Boot Message:" +:+ newline +:+ decode_ascii_replace text).

(** The message part of the output of [print_info]: the lines after the
    six header lines. *)
Definition message_part (data : list byte) : list string :=
  let msg_end := bytes_find data [NUL] 0x60 in
  if 0x60 <? msg_end then [message_line (slice data 0x60 msg_end)] else [].

(** The six header lines of [print_info], given the decoded magic and the
    four bytes that are shown. *)
Definition header_lines (path : string) (data : list byte) (magic : string)
    (version checksum lo hi : byte) : list string :=
  [ line ("Image: " +:+ path);
    line ("Size: " +:+ str_of_int (len data) +:+ " bytes");
    line ("RIFT Magic: " +:+ magic);
    line ("Version: " +:+ str_of_int (int_of_byte version));
    line ("Checksum: 0x" +:+ format_02X (int_of_byte checksum));
    line ("Boot Signature: 0x" +:+ format_02X (int_of_byte lo)
          +:+ format_02X (int_of_byte hi)) ].

(** [first_nul data start k]: [k] is the offset of the first NUL byte of
    [data] at or after [start]. *)
Definition first_nul (data : list byte) (start k : nat) : Prop :=
  (start <= k)%nat /\ data !! k = Some NUL /\
  forall j, (start <= j < k)%nat -> data !! j <> Some NUL.

(** [only_new_dirs w w']: from [w] to [w'] nothing is printed, the working
    directory stays, and the file tree changes only by directories that
    appear where there was nothing. *)
Definition only_new_dirs (w w' : world) : Prop :=
  cwd w' = cwd w /\ stdout w' = stdout w /\
  forall loc,
    tree w' !! loc = tree w !! loc \/
    (tree w !! loc = None /\ tree w' !! loc = Some Dir).

Definition adds_dirs {A} (m : M A) : Prop :=
  forall w, only_new_dirs w (m w).1.

(** A produced image whose checksum byte and first code byte have been
    overwritten, and a world that holds it as /tmp/odd.img. *)
Definition tampered_image : list byte :=
  <[8%nat := x90]> (<[6%nat := x00]> boot_image).

Definition tampered_world : world :=
  World ["tmp"%string]
    {[ [] := Dir; ["tmp"%string] := Dir;
       ["odd.img"; "tmp"]%string := File tampered_image ]} [] 900.

(** The first 300 bytes of a produced image, which hold the whole message
    and its NUL byte, and a world that holds them as /tmp/short.img. *)
Definition truncated_image : list byte := take 300 boot_image.

Definition truncated_world : world :=
  World ["tmp"%string]
    {[ [] := Dir; ["tmp"%string] := Dir;
       ["short.img"; "tmp"]%string := File truncated_image ]} [] 900.

(** A produced image with a NUL byte written over the fifth byte of its
    message, and a world that holds it as /tmp/cut.img. *)
Definition cut_image : list byte := <[100%nat := NUL]> boot_image.

Definition cut_world : world :=
  World ["tmp"%string]
    {[ [] := Dir; ["tmp"%string] := Dir;
       ["cut.img"; "tmp"]%string := File cut_image ]} [] 900.

(** A produced image whose first byte has been overwritten, and a world
    that holds it as /tmp/defaced.img. *)
Definition defaced_image : list byte := <[0%nat := x00]> boot_image.

Definition defaced_world : world :=
  World ["tmp"%string]
    {[ [] := Dir; ["tmp"%string] := Dir;
       ["defaced.img"; "tmp"]%string := File defaced_image ]} [] 900.

(** The three checks of [verify_image], on the content of a file. *)
Definition valid_image (data : list byte) : Prop :=
  length data = 512%nat /\ take 4 data = bytes_lit "NXOB" /\
  data !! 510%nat = Some x55 /\ data !! 511%nat = Some xaa.

(** An empty root directory in which [os.makedirs] can nest three calls
    and no more. *)
Definition shallow_world : world := World [] {[ [] := Dir ]} [] 2.

(** [c * n], as in [sep*len(head)]. *)
Fixpoint str_repeat (c : ascii) (n : nat) : string :=
  match n with
  | O => EmptyString
  | S n' => String c (str_repeat c n')
  end.

(** A plain name: not empty, not '.' or '..', without a slash or a null
    byte, and of at most [NAME_MAX] bytes. *)
Definition plain_name (s : string) : Prop :=
  ~ In sep (list_ascii_of_string s) /\ has_nul s = false /\
  s <> EmptyString /\ s <> "."%string /\ s <> ".."%string /\
  Z.of_nat (String.length s) <= NAME_MAX.

(** ** How the values of the diagnostics read

    What the diagnostics of [verify_image] show, written from the
    alphabets of the digits and from the rules of a bytes literal rather
    than by the formatting functions above. *)

(** The character of [alphabet] at index [i], as a string. *)
Definition char_at (alphabet : string) (i : Z) : string :=
  match String.get (Z.to_nat i) alphabet with
  | Some c => String c EmptyString
  | None => EmptyString
  end.

(** The number that decimal digits denote, most significant first, and
    their text. *)
Definition decimal_value (ds : list Z) : Z :=
  fold_left (fun a d => 10 * a + d) ds 0.

Fixpoint decimal_text (ds : list Z) : string :=
  match ds with
  | [] => EmptyString
  | d :: r => char_at "0123456789" d +:+ decimal_text r
  end.

(** Digits from 0 to 9, with no leading zero but for the number 0. *)
Definition canonical_digits (ds : list Z) : Prop :=
  Forall (fun d => 0 <= d <= 9) ds /\
  (ds = [0] \/ exists d r, ds = d :: r /\ d <> 0).

(** The two hexadecimal digits of a byte. *)
Definition hex_pair (alphabet : string) (x : byte) : string :=
  char_at alphabet (int_of_byte x / 16)
  +:+ char_at alphabet (int_of_byte x mod 16).

(** How one byte reads inside a bytes literal quoted by [quote]. *)
Inductive escaped (quote : ascii) : byte -> string -> Prop :=
| escaped_quote x :
    ascii_of_byte x = quote ->
    escaped quote x (String "\"%char (String quote EmptyString))
| escaped_backslash : escaped quote x5c "\\"
| escaped_tab : escaped quote x09 "\t"
| escaped_newline : escaped quote x0a "\n"
| escaped_return : escaped quote x0d "\r"
| escaped_printable x :
    0x20 <= int_of_byte x < 0x7f ->
    ascii_of_byte x <> quote -> x <> x5c ->
    escaped quote x (String (ascii_of_byte x) EmptyString)
| escaped_hex x :
    int_of_byte x < 0x20 \/ 0x7f <= int_of_byte x ->
    x <> x09 -> x <> x0a -> x <> x0d ->
    escaped quote x ("\x" +:+ hex_pair "0123456789abcdef" x).

(** The quote of a bytes literal: the double quote when the bytes hold a
    single quote and no double one. *)
Definition literal_quote (data : list byte) : ascii :=
  if bool_decide (x27 ∈ data /\ x22 ∉ data) then "034"%char else "'"%char.

(** * Properties of the runtime model *)

Section Strings.

Lemma rfind_char_range c s :
  -1 <= rfind_char c s < Z.of_nat (String.length s).
Proof.
  induction s as [|a s IH]; simpl; [lia|].
  destruct (0 <=? rfind_char c s) eqn:E; [apply Z.leb_le in E; lia|].
  destruct (Ascii.eqb a c); lia.
Qed.

Lemma rfind_char_absent c s :
  (forall a, In a (list_ascii_of_string s) -> a <> c) ->
  rfind_char c s = -1.
Proof.
  induction s as [|a s IH]; simpl; intros H; [reflexivity|].
  rewrite IH by (intros; apply H; now right). simpl.
  destruct (Ascii.eqb_spec a c) as [->|]; [|reflexivity].
  exfalso. apply (H c); [now left|reflexivity].
Qed.

Lemma str_take_length n s :
  String.length (str_take n s) = Nat.min n (String.length s).
Proof.
  revert s; induction n as [|n IH]; intros [|a s]; simpl; auto.
Qed.

Lemma str_drop_length n s :
  String.length (str_drop n s) = (String.length s - n)%nat.
Proof.
  revert s; induction n as [|n IH]; intros [|a s]; simpl; auto.
Qed.

Lemma rstrip_char_length c s :
  (String.length (rstrip_char c s) <= String.length s)%nat.
Proof.
  induction s as [|a s IH]; simpl; [lia|].
  destruct (rstrip_char c s); simpl in *; [destruct (Ascii.eqb a c); simpl|]; lia.
Qed.

Lemma truthy_length s : truthy s = true <-> (0 < String.length s)%nat.
Proof. destruct s; simpl; split; intros; try lia; congruence. Qed.

(** The head of a split is no longer than the path, and shorter when
    there is a tail. *)
Lemma path_split_length p :
  (String.length (path_split p).1 <= String.length p)%nat /\
  (truthy (path_split p).2 = true ->
   (String.length (path_split p).1 < String.length p)%nat).
Proof.
  unfold path_split; simpl.
  pose proof (rfind_char_range sep p) as R.
  set (i := Z.to_nat (rfind_char sep p + 1)) in *.
  assert (Hh : (String.length
                  (if truthy (str_take i p) && negb (all_char sep (str_take i p))
                   then rstrip_char sep (str_take i p) else str_take i p)
                <= Nat.min i (String.length p))%nat).
  { rewrite <- str_take_length.
    destruct (truthy _ && negb _); [apply rstrip_char_length|lia]. }
  split; [lia|].
  rewrite truthy_length, str_drop_length. lia.
Qed.

Lemma path_dirname_split p : path_dirname p = (path_split p).1.
Proof. reflexivity. Qed.

(** A path without a slash has an empty directory part. *)
Lemma path_dirname_bare p :
  (forall a, In a (list_ascii_of_string p) -> a <> sep) ->
  path_dirname p = EmptyString.
Proof.
  intros H. unfold path_dirname. rewrite rfind_char_absent by assumption.
  reflexivity.
Qed.

End Strings.

Section Runtime.

Lemma bind_run {A B} (m : M A) (k : A -> M B) w :
  bind m k w =
  match m w with
  | (w', Returns a) => k a w'
  | (w', Raises e) => (w', Raises e)
  end.
Proof. reflexivity. Qed.

Lemma walk_raises_oserror t cs : forall cur e,
  walk t cur cs = Raises e -> exists en, e = OSError en.
Proof.
  induction cs as [|c cs IH]; intros cur e; simpl; [discriminate|].
  destruct (t !! cur) as [[|d]|]; try (intros [= <-]; eauto).
  repeat case_decide; try apply IH.
  destruct (NAME_MAX <? Z.of_nat (String.length c));
    [intros [= <-]; eauto|apply IH].
Qed.

(** A path that leads somewhere has no null byte, is not empty and is
    shorter than [PATH_MAX]. *)
Lemma resolve_returns w p loc :
  resolve w p = Returns loc ->
  has_nul p = false /\ truthy p = true /\
  Z.of_nat (String.length p) < PATH_MAX /\
  walk (tree w) (if is_absolute p then [] else cwd w) (components p)
  = Returns loc.
Proof.
  unfold resolve. destruct (has_nul p); [discriminate|].
  destruct (truthy p); cbn [negb]; [|discriminate].
  destruct (Z.leb_spec PATH_MAX (Z.of_nat (String.length p)));
    [discriminate|].
  auto.
Qed.

Lemma resolve_walk w p :
  has_nul p = false -> truthy p = true ->
  Z.of_nat (String.length p) < PATH_MAX ->
  resolve w p =
  walk (tree w) (if is_absolute p then [] else cwd w) (components p).
Proof.
  intros Hn Ht Hl. unfold resolve. rewrite Hn, Ht. cbn [negb].
  destruct (Z.leb_spec PATH_MAX (Z.of_nat (String.length p)));
    [lia|reflexivity].
Qed.

Lemma resolve_raises w p e :
  resolve w p = Raises e ->
  (e = ValueError /\ has_nul p = true) \/
  (has_nul p = false /\ exists en, e = OSError en).
Proof.
  unfold resolve. destruct (has_nul p); [intros [= <-]; auto|].
  intros H. right. split; [reflexivity|]. revert H.
  destruct (truthy p); cbn [negb]; [|intros [= <-]; eauto].
  destruct (PATH_MAX <=? Z.of_nat (String.length p));
    [intros [= <-]; eauto|].
  apply walk_raises_oserror.
Qed.

Lemma os_stat_run p w :
  (exists n, os_stat p w = (w, Returns n)) \/
  (exists e, os_stat p w = (w, Raises e) /\
             (e = ValueError \/ exists en, e = OSError en)).
Proof.
  unfold os_stat. destruct (resolve w p) as [loc|e] eqn:R.
  - destruct (tree w !! loc); eauto 6.
  - right. exists e. split; [reflexivity|].
    apply resolve_raises in R as [[-> _]|[_ H]]; auto.
Qed.

Lemma path_exists_run p w : exists ex, path_exists p w = (w, Returns ex).
Proof.
  unfold path_exists, try_except. rewrite bind_run.
  destruct (os_stat_run p w) as [[n ->]|(e & -> & [->|[en ->]])]; eauto.
Qed.

Lemma path_isdir_run p w : exists d, path_isdir p w = (w, Returns d).
Proof.
  unfold path_isdir, try_except. rewrite bind_run.
  destruct (os_stat_run p w) as [[n ->]|(e & -> & [->|[en ->]])]; eauto.
Qed.

End Runtime.

Section FileTree.

(** Writing a regular file where no directory is does not change where
    a path leads. *)
Lemma walk_insert_file t loc data cs : forall cur r,
  t !! loc <> Some Dir ->
  walk t cur cs = Returns r ->
  walk (<[loc := File data]> t) cur cs = Returns r.
Proof.
  induction cs as [|c cs IH]; intros cur r Hloc; simpl; [auto|].
  destruct (t !! cur) as [[|d]|] eqn:E; try discriminate.
  assert (loc <> cur) by congruence.
  rewrite lookup_insert_ne, E by assumption.
  repeat case_decide; auto.
  destruct (NAME_MAX <? Z.of_nat (String.length c)); auto.
Qed.

Lemma resolve_insert_file w loc data p r :
  tree w !! loc <> Some Dir ->
  resolve w p = Returns r ->
  resolve (set_tree w (<[loc := File data]> (tree w))) p = Returns r.
Proof.
  intros Hloc R. apply resolve_returns in R as (Hn & Ht & Hl & W).
  rewrite resolve_walk by assumption. now apply walk_insert_file.
Qed.

Lemma open_wb_returns p w w' f :
  open_wb p w = (w', Returns f) ->
  resolve w p = Returns f /\ tree w !! f <> Some Dir /\
  w' = set_tree w (<[f := File []]> (tree w)).
Proof.
  unfold open_wb. destruct (resolve w p) as [loc|e]; [|discriminate].
  destruct (tree w !! loc) as [[|d]|] eqn:E; [discriminate| |].
  - intros [= <- <-]. rewrite E. auto.
  - destruct (tree w !! List.tl loc) as [[|d]|]; try discriminate.
    intros [= <- <-]. rewrite E. auto.
Qed.

(** Writing to a file that [open_wb] has just opened. *)
Lemma file_write_fresh w f data :
  file_write f data (set_tree w (<[f := File []]> (tree w))) =
  (set_tree w (<[f := File data]> (tree w)), Returns (len data)).
Proof.
  unfold file_write, set_tree. simpl.
  rewrite lookup_insert_eq, insert_insert_eq. reflexivity.
Qed.

Lemma open_rb_file w p data :
  file_at w p data ->
  exists f, open_rb p w = (w, Returns f) /\ file_read f w = (w, Returns data).
Proof.
  intros (loc & R & E). exists loc. unfold open_rb, file_read.
  rewrite R, E. auto.
Qed.

End FileTree.

Section Build.

(** The buffer that [create_boot_image] fills is the layout
    [boot_image]; no assignment to it raises. *)
Lemma create_boot_image_unfold output_path :
  create_boot_image output_path =
  (do! makedirs (path_dirname output_path) true in
   let! f := open_wb output_path in
   do! file_write f boot_image in
   ret output_path).
Proof.
  unfold create_boot_image.
  generalize (makedirs (path_dirname output_path) true) as mk.
  generalize (open_wb output_path) as op.
  generalize file_write as fw.
  intros. vm_compute. reflexivity.
Qed.

(** What a successful call has done. *)
Lemma create_boot_image_returns p w w' r :
  create_boot_image p w = (w', Returns r) ->
  r = p /\
  exists w1 loc,
    makedirs (path_dirname p) true w = (w1, Returns tt) /\
    resolve w1 p = Returns loc /\ tree w1 !! loc <> Some Dir /\
    w' = set_tree w1 (<[loc := File boot_image]> (tree w1)).
Proof.
  rewrite create_boot_image_unfold, bind_run.
  destruct (makedirs _ _ w) as [w1 [[]|e]]; [|discriminate].
  rewrite bind_run. destruct (open_wb p w1) as [w2 [f|e]] eqn:O; [|discriminate].
  apply open_wb_returns in O as (R & Hf & ->).
  rewrite bind_run, file_write_fresh. intros [= <- <-].
  split; [reflexivity|]. exists w1, f. auto.
Qed.

Lemma create_boot_image_file p w w' r :
  create_boot_image p w = (w', Returns r) -> file_at w' p boot_image.
Proof.
  intros H. apply create_boot_image_returns in H as (_ & w1 & loc & _ & R & Hf & ->).
  exists loc. split; [now apply resolve_insert_file|].
  simpl. apply lookup_insert_eq.
Qed.

End Build.

Section Bytes.

Lemma int_of_byte_inj x y : int_of_byte x = int_of_byte y -> x = y.
Proof.
  unfold int_of_byte. intros H. apply N2Z.inj in H.
  pose proof (Byte.of_to_N x) as Hx. rewrite H, Byte.of_to_N in Hx.
  congruence.
Qed.

Lemma int_of_byte_eqb x y :
  (int_of_byte x =? int_of_byte y) = bool_decide (x = y).
Proof.
  case_bool_decide as E.
  - subst. apply Z.eqb_refl.
  - apply Z.eqb_neq. intros H. apply E, int_of_byte_inj, H.
Qed.

Lemma int_of_byte_range x : 0 <= int_of_byte x < 256.
Proof. destruct x; vm_compute; split; congruence. Qed.

Lemma len_eqb {A} (l : list A) (n : nat) :
  (len l =? Z.of_nat n) = bool_decide (length l = n).
Proof.
  unfold len. case_bool_decide as E.
  - rewrite E. apply Z.eqb_refl.
  - apply Z.eqb_neq. lia.
Qed.

Lemma slice_from_0 data (n : nat) : slice data 0 (Z.of_nat n) = take n data.
Proof.
  unfold slice, slice_index, len. simpl.
  replace (Z.min 0 (Z.of_nat (length data))) with 0 by lia.
  destruct (Z.of_nat n <? 0) eqn:E; [apply Z.ltb_lt in E; lia|].
  rewrite Z.sub_0_r. change (Z.to_nat 0) with 0%nat. rewrite drop_0.
  destruct (decide (n <= length data)%nat).
  - f_equal. lia.
  - replace (Z.to_nat _) with (length data) by lia.
    rewrite !take_ge by lia. reflexivity.
Qed.

Lemma getitem_lookup data (i : nat) x w :
  data !! i = Some x ->
  getitem data (Z.of_nat i) w = (w, Returns (int_of_byte x)).
Proof.
  intros H. unfold getitem.
  destruct (Z.of_nat i <? 0) eqn:E; [apply Z.ltb_lt in E; lia|].
  rewrite E, Nat2Z.id, H. reflexivity.
Qed.

Lemma getitem_beyond data (i : nat) w :
  (length data <= i)%nat ->
  getitem data (Z.of_nat i) w = (w, Raises IndexError).
Proof.
  intros H. unfold getitem.
  destruct (Z.of_nat i <? 0) eqn:E; [apply Z.ltb_lt in E; lia|].
  rewrite E, Nat2Z.id, (lookup_ge_None_2 data i) by lia. reflexivity.
Qed.

Lemma bind_getitem {B} data (i : nat) x w (k : Z -> M B) :
  data !! i = Some x ->
  bind (getitem data (Z.of_nat i)) k w = k (int_of_byte x) w.
Proof. intros H. rewrite bind_run, (getitem_lookup data i x) by assumption. reflexivity. Qed.

End Bytes.

Section Verify.

Variables (w : world) (p : string) (data : list byte).
Hypothesis readable : file_at w p data.

Lemma verify_image_read :
  verify_image p w =
  (if negb (len data =? 512) then
     do! print (size_diagnostic data) in ret false
   else if negb (bool_decide (slice data 0 4 = bytes_lit "NXOB")) then
     do! print ("ERROR: RIFT magic is " +:+ bytes_repr (slice data 0 4)
                +:+ " (expected NXOB)") in ret false
   else
     let! bad :=
       (let! lo := getitem data 510 in
        if negb (lo =? 0x55) then ret true
        else let! hi := getitem data 511 in ret (negb (hi =? 0xAA))) in
     if bad : bool then
       let! lo := getitem data 510 in
       let! hi := getitem data 511 in
       do! print ("ERROR: Boot signature is " +:+ format_02X lo
                  +:+ format_02X hi +:+ " (expected 55AA)") in
       ret false
     else ret true) w.
Proof.
  destruct (open_rb_file _ _ _ readable) as (f & Ho & Hr).
  unfold verify_image. rewrite bind_run, Ho, bind_run, Hr. reflexivity.
Qed.

Lemma verify_image_size :
  length data <> 512%nat ->
  verify_image p w = (printed w [size_diagnostic data +:+ newline], Returns false).
Proof.
  intros H. rewrite verify_image_read.
  change 512 with (Z.of_nat 512).
  rewrite (len_eqb data 512), bool_decide_eq_false_2 by assumption.
  reflexivity.
Qed.

Lemma verify_image_magic :
  length data = 512%nat -> take 4 data <> bytes_lit "NXOB" ->
  verify_image p w = (printed w [magic_diagnostic data +:+ newline], Returns false).
Proof.
  intros H Hm. rewrite verify_image_read.
  change 512 with (Z.of_nat 512). change 4 with (Z.of_nat 4).
  rewrite (len_eqb data 512), bool_decide_eq_true_2 by assumption.
  rewrite (slice_from_0 data 4), bool_decide_eq_false_2 by assumption.
  reflexivity.
Qed.

Lemma verify_image_signature lo hi :
  length data = 512%nat -> take 4 data = bytes_lit "NXOB" ->
  data !! 510%nat = Some lo -> data !! 511%nat = Some hi ->
  verify_image p w =
  if bool_decide (lo = x55 /\ hi = xaa) then (w, Returns true)
  else (printed w [signature_diagnostic lo hi +:+ newline], Returns false).
Proof.
  intros H Hm Hlo Hhi. rewrite verify_image_read.
  change 512 with (Z.of_nat 512). change 4 with (Z.of_nat 4).
  change 510 with (Z.of_nat 510). change 511 with (Z.of_nat 511).
  rewrite (len_eqb data 512), bool_decide_eq_true_2 by assumption.
  rewrite (slice_from_0 data 4), bool_decide_eq_true_2 by assumption.
  cbn [negb].
  pose proof (fun B k => @bind_getitem B data 510 lo w k Hlo) as G0.
  pose proof (fun B k => @bind_getitem B data 511 hi w k Hhi) as G1.
  rewrite bind_run, G0.
  change 0x55 with (int_of_byte x55). change 0xAA with (int_of_byte xaa).
  rewrite !int_of_byte_eqb.
  destruct (decide (lo = x55)) as [->|Hn].
  - rewrite (bool_decide_eq_true_2 (x55 = x55)) by reflexivity. cbn [negb].
    rewrite G1. unfold ret at 1. rewrite !int_of_byte_eqb.
    destruct (decide (hi = xaa)) as [->|Hn].
    + rewrite !bool_decide_eq_true_2 by auto. reflexivity.
    + rewrite !bool_decide_eq_false_2 by tauto. cbn [negb].
      rewrite G0, G1. reflexivity.
  - rewrite !bool_decide_eq_false_2 by tauto. cbn [negb]. unfold ret at 1.
    rewrite G0, G1. reflexivity.
Qed.

End Verify.

Section Image.

Lemma boot_image_length : length boot_image = 512%nat.
Proof. reflexivity. Qed.

Lemma boot_image_magic : take 4 boot_image = bytes_lit "NXOB".
Proof. reflexivity. Qed.

Lemma boot_image_signature :
  boot_image !! 510%nat = Some x55 /\ boot_image !! 511%nat = Some xaa.
Proof. split; reflexivity. Qed.

Lemma boot_image_gaps i :
  (i < 512)%nat -> populated i = false -> boot_image !! i = Some x00.
Proof.
  intros Hi Hp.
  assert (H : forallb (fun i => populated i
                        || bool_decide (boot_image !! i = Some x00))
                (seq 0 512) = true) by (vm_compute; reflexivity).
  rewrite forallb_forall in H.
  assert (Hin : In i (seq 0 512)) by (apply in_seq; lia).
  apply H in Hin. rewrite Hp in Hin. simpl in Hin.
  now apply bool_decide_eq_true in Hin.
Qed.

Lemma verify_image_boot_image w p :
  file_at w p boot_image -> verify_image p w = (w, Returns true).
Proof.
  intros H.
  rewrite (verify_image_signature w p boot_image H x55 xaa) by reflexivity.
  reflexivity.
Qed.

End Image.

Section Frame.

Lemma ret_keeps_files {A} (a : A) : keeps_files (ret a).
Proof. intros w. split; reflexivity. Qed.

Lemma raise_keeps_files {A} e : keeps_files (@raise A e).
Proof. intros w. split; reflexivity. Qed.

Lemma print_keeps_files s : keeps_files (print s).
Proof. intros w. split; reflexivity. Qed.

Lemma bind_keeps_files {A B} (m : M A) (k : A -> M B) :
  keeps_files m -> (forall a, keeps_files (k a)) -> keeps_files (bind m k).
Proof.
  intros Hm Hk w. rewrite bind_run. specialize (Hm w).
  destruct (m w) as [w1 [a|e]]; simpl in *; [|assumption].
  destruct Hm as [Hc Ht]. destruct (Hk a w1) as [Hc' Ht'].
  split; congruence.
Qed.

Lemma open_rb_keeps_files p : keeps_files (open_rb p).
Proof.
  intros w. unfold open_rb. destruct (resolve w p); [|split; reflexivity].
  destruct (tree w !! a) as [[|d]|]; split; reflexivity.
Qed.

Lemma file_read_keeps_files f : keeps_files (file_read f).
Proof.
  intros w. unfold file_read.
  destruct (tree w !! f) as [[|d]|]; split; reflexivity.
Qed.

Lemma getitem_keeps_files data i : keeps_files (getitem data i).
Proof.
  unfold getitem. destruct (_ <? 0); [apply raise_keeps_files|].
  destruct (data !! _); [apply ret_keeps_files|apply raise_keeps_files].
Qed.

Lemma decode_ascii_keeps_files data : keeps_files (decode_ascii data).
Proof.
  unfold decode_ascii.
  destruct (decode_ascii_strict data); [apply ret_keeps_files|apply raise_keeps_files].
Qed.

End Frame.

Create HintDb frame.

#[local] Hint Resolve ret_keeps_files raise_keeps_files print_keeps_files
  open_rb_keeps_files file_read_keeps_files getitem_keeps_files
  decode_ascii_keeps_files : frame.

Ltac frame_step :=
  match goal with
  | |- keeps_files (bind _ _) => apply bind_keeps_files; [|intro]
  | |- keeps_files (if ?c then _ else _) => destruct c
  | |- keeps_files _ => solve [auto with frame]
  end.

Section Makedirs.

(** With no directory part there is nothing that [os.makedirs] can make:
    [mkdir('')] fails, and [''] is not a directory. *)
Lemma makedirs_empty exist_ok w :
  makedirs EmptyString exist_ok w = (w, Raises (OSError ENOENT)).
Proof. destruct exist_ok; reflexivity. Qed.

End Makedirs.

Section Find.

Lemma find_at_single_found x l : forall (i : nat) k0,
  l !! i = Some x -> (forall j, (j < i)%nat -> l !! j <> Some x) ->
  find_at [x] l k0 = k0 + Z.of_nat i.
Proof.
  induction l as [|y l IH]; intros i k0 Hi Hmin; [discriminate|].
  cbn [find_at starts_with]. destruct i as [|i].
  - injection Hi as ->. rewrite bool_decide_eq_true_2 by reflexivity.
    simpl. lia.
  - rewrite bool_decide_eq_false_2.
    + simpl. rewrite (IH i (k0 + 1)); [lia|exact Hi|].
      intros j Hj. apply (Hmin (S j)). lia.
    + intros ->. apply (Hmin 0%nat); [lia|reflexivity].
Qed.

Lemma find_at_single_absent x l : forall k0,
  (forall j, l !! j <> Some x) -> find_at [x] l k0 = -1.
Proof.
  induction l as [|y l IH]; intros k0 H; [reflexivity|].
  cbn [find_at starts_with]. rewrite bool_decide_eq_false_2.
  - simpl. apply IH. intros j. apply (H (S j)).
  - intros ->. apply (H 0%nat). reflexivity.
Qed.

Lemma slice_index_within (n i : nat) :
  (i <= n)%nat -> slice_index (Z.of_nat n) (Z.of_nat i) = Z.of_nat i.
Proof.
  intros H. unfold slice_index.
  destruct (Z.of_nat i <? 0) eqn:E; [apply Z.ltb_lt in E|]; lia.
Qed.

Lemma bytes_find_first data (start k : nat) :
  first_nul data start k ->
  bytes_find data [NUL] (Z.of_nat start) = Z.of_nat k.
Proof.
  intros (Hk & Hnul & Hmin). pose proof (lookup_lt_Some _ _ _ Hnul) as Hlt.
  unfold bytes_find, len.
  destruct (Z.of_nat (length data) <? Z.of_nat start) eqn:E;
    [apply Z.ltb_lt in E; lia|].
  rewrite slice_index_within, Nat2Z.id by lia.
  rewrite (find_at_single_found NUL _ (k - start)).
  - lia.
  - rewrite lookup_drop. replace (start + (k - start))%nat with k by lia.
    exact Hnul.
  - intros j Hj. rewrite lookup_drop. apply Hmin. lia.
Qed.

Lemma bytes_find_none data (start : nat) :
  (forall j, (start <= j)%nat -> data !! j <> Some NUL) ->
  bytes_find data [NUL] (Z.of_nat start) = -1.
Proof.
  intros H. unfold bytes_find, len.
  destruct (Z.of_nat (length data) <? Z.of_nat start) eqn:E; [reflexivity|].
  apply Z.ltb_ge in E. rewrite slice_index_within, Nat2Z.id by lia.
  apply find_at_single_absent. intros j. rewrite lookup_drop. apply H. lia.
Qed.

Lemma slice_within data (i j : nat) :
  (i <= j <= length data)%nat ->
  slice data (Z.of_nat i) (Z.of_nat j) = take (j - i) (drop i data).
Proof.
  intros H. unfold slice, len. rewrite !slice_index_within by lia.
  rewrite Nat2Z.id. f_equal. lia.
Qed.

(** The message part in terms of the first NUL byte. *)
Lemma message_part_first data k :
  first_nul data 0x60 k -> (0x60 < k)%nat ->
  message_part data = [message_line (take (k - 0x60) (drop 0x60 data))].
Proof.
  intros H Hk. unfold message_part.
  change 0x60 with (Z.of_nat 0x60). rewrite (bytes_find_first _ _ _ H).
  destruct (Z.of_nat 96 <? Z.of_nat k) eqn:E; [|apply Z.ltb_ge in E; lia].
  destruct H as (_ & Hnul & _). apply lookup_lt_Some in Hnul.
  rewrite slice_within by lia. reflexivity.
Qed.

Lemma message_part_at_start data :
  data !! 0x60%nat = Some NUL -> message_part data = [].
Proof.
  intros H. unfold message_part. change 0x60 with (Z.of_nat 0x60).
  rewrite (bytes_find_first data 0x60 0x60); [reflexivity|].
  split; [lia|]. split; [exact H|]. intros j Hj. lia.
Qed.

Lemma message_part_none data :
  (forall j, (0x60 <= j)%nat -> data !! j <> Some NUL) -> message_part data = [].
Proof.
  intros H. unfold message_part. change 0x60 with (Z.of_nat 0x60).
  rewrite bytes_find_none by assumption. reflexivity.
Qed.

End Find.

Section Describe.

Lemma bind_print {B} s (k : unit -> M B) w :
  bind (print s) k w = k tt (printed w [s +:+ newline]).
Proof. reflexivity. Qed.

Lemma printed_printed w l1 l2 : printed (printed w l1) l2 = printed w (l1 ++ l2).
Proof. unfold printed. simpl. rewrite <- app_assoc. reflexivity. Qed.

Lemma bind_getitem_some {B} data i x w (k : Z -> M B) :
  0 <= i -> data !! Z.to_nat i = Some x ->
  bind (getitem data i) k w = k (int_of_byte x) w.
Proof.
  intros Hi H. rewrite <- (Z2Nat.id i) at 1 by assumption.
  now apply bind_getitem.
Qed.

Lemma bind_getitem_none {B} data i w (k : Z -> M B) :
  0 <= i -> data !! Z.to_nat i = None ->
  bind (getitem data i) k w = (w, Raises IndexError).
Proof.
  intros Hi H. rewrite bind_run. rewrite <- (Z2Nat.id i) at 1 by assumption.
  rewrite getitem_beyond; [reflexivity|]. now apply lookup_ge_None.
Qed.

Lemma bind_decode_some {B} data s w (k : string -> M B) :
  decode_ascii_strict data = Some s -> bind (decode_ascii data) k w = k s w.
Proof. intros H. unfold decode_ascii. rewrite bind_run, H. reflexivity. Qed.

Lemma bind_decode_none {B} data w (k : string -> M B) :
  decode_ascii_strict data = None ->
  bind (decode_ascii data) k w = (w, Raises UnicodeDecodeError).
Proof. intros H. unfold decode_ascii. rewrite bind_run, H. reflexivity. Qed.

End Describe.

Ltac describe_step :=
  match goal with
  | |- context [bind (print _) _ _] =>
      rewrite bind_print; cbv beta; rewrite ?printed_printed
  | H : ?data !! ?n = Some ?x |- context [bind (getitem ?data ?i) _ _] =>
      rewrite (bind_getitem_some data i x) by (first [lia | exact H]);
      cbv beta
  | H : ?data !! ?n = None |- context [bind (getitem ?data ?i) _ _] =>
      rewrite (bind_getitem_none data i) by (first [lia | exact H])
  | H : decode_ascii_strict ?d = Some ?s |- context [bind (decode_ascii ?d) _ _] =>
      rewrite (bind_decode_some d s) by exact H; cbv beta
  | H : decode_ascii_strict ?d = None |- context [bind (decode_ascii ?d) _ _] =>
      rewrite (bind_decode_none d) by exact H
  end.

Section DescribeRun.

Variables (w : world) (p : string) (data : list byte).
Hypothesis readable : file_at w p data.

(** [print_info] on a readable file: the six header lines and the
    message part, unless the magic is not ASCII or the file is too short
    for one of the bytes that are shown. *)
Lemma print_info_run :
  match decode_ascii_strict (slice data 0 4), data !! 4%nat, data !! 6%nat,
        data !! 510%nat, data !! 511%nat with
  | Some magic, Some version, Some checksum, Some lo, Some hi =>
      print_info p w =
      (printed w (header_lines p data magic version checksum lo hi
                  ++ message_part data), Returns tt)
  | _, _, _, _, _ =>
      exists hdr e,
        (length hdr < 6)%nat /\ print_info p w = (printed w hdr, Raises e)
  end.
Proof.
  destruct (open_rb_file _ _ _ readable) as (f & Ho & Hr).
  unfold print_info. rewrite bind_run, Ho, bind_run, Hr.
  destruct (decode_ascii_strict (slice data 0 4)) as [magic|] eqn:Hm;
    destruct (data !! 4%nat) as [version|] eqn:H4;
    destruct (data !! 6%nat) as [checksum|] eqn:H6;
    destruct (data !! 510%nat) as [lo|] eqn:H510;
    destruct (data !! 511%nat) as [hi|] eqn:H511;
    repeat describe_step;
    try (eexists _, _; split; [|reflexivity]; simpl; lia).
  unfold message_part. cbv zeta.
  destruct (0x60 <? bytes_find data [NUL] 0x60).
  - unfold print, printed. simpl. rewrite <- !app_assoc. reflexivity.
  - rewrite app_nil_r. reflexivity.
Qed.

End DescribeRun.

Section Report.

Lemma open_rb_returns p w w' f :
  open_rb p w = (w', Returns f) ->
  w' = w /\ exists data, resolve w p = Returns f /\ tree w !! f = Some (File data).
Proof.
  unfold open_rb. destruct (resolve w p) as [loc|e]; [|discriminate].
  destruct (tree w !! loc) as [[|d]|] eqn:E; try discriminate.
  intros [= <- <-]. eauto.
Qed.

(** When [verify_image] returns True, the path leads to a file that
    passes the three checks, and nothing was printed. *)
Lemma verify_image_true p w w' :
  verify_image p w = (w', Returns true) ->
  w' = w /\
  exists data,
    file_at w p data /\ length data = 512%nat /\
    take 4 data = bytes_lit "NXOB" /\
    data !! 510%nat = Some x55 /\ data !! 511%nat = Some xaa.
Proof.
  intros E.
  assert (F : exists data, file_at w p data).
  { unfold verify_image in E. rewrite bind_run in E.
    destruct (open_rb p w) as [w1 [f|e]] eqn:O; [|discriminate].
    apply open_rb_returns in O as (_ & data & R & T).
    exists data, f. auto. }
  destruct F as [data F].
  destruct (decide (length data = 512%nat)) as [Hl|Hl];
    [|rewrite (verify_image_size w p data F Hl) in E; discriminate].
  destruct (decide (take 4 data = bytes_lit "NXOB")) as [Hm|Hm];
    [|rewrite (verify_image_magic w p data F Hl Hm) in E; discriminate].
  destruct (lookup_lt_is_Some_2 data 510) as [lo Hlo]; [lia|].
  destruct (lookup_lt_is_Some_2 data 511) as [hi Hhi]; [lia|].
  rewrite (verify_image_signature w p data F lo hi Hl Hm Hlo Hhi) in E.
  case_bool_decide as Hs; [|discriminate].
  destruct Hs as [-> ->]. injection E as <-.
  split; [reflexivity|]. exists data. auto.
Qed.

(** [print_info] returns on every file that passes the three checks. *)
Lemma print_info_valid w p data :
  file_at w p data -> length data = 512%nat ->
  take 4 data = bytes_lit "NXOB" ->
  data !! 510%nat = Some x55 -> data !! 511%nat = Some xaa ->
  exists version checksum,
    print_info p w =
    (printed w (header_lines p data "NXOB" version checksum x55 xaa
                ++ message_part data), Returns tt).
Proof.
  intros F Hl Hm Hlo Hhi. pose proof (print_info_run w p data F) as H.
  change 4 with (Z.of_nat 4) in H. rewrite slice_from_0, Hm, Hlo, Hhi in H.
  destruct (lookup_lt_is_Some_2 data 4) as [v Hv]; [lia|].
  destruct (lookup_lt_is_Some_2 data 6) as [c Hc]; [lia|].
  rewrite Hv, Hc in H. exists v, c. exact H.
Qed.

Lemma print_info_boot_image w p :
  file_at w p boot_image ->
  print_info p w =
  (printed w (header_lines p boot_image "NXOB" x01 xfe x55 xaa
              ++ [line (newline +:+ "Boot Message:" +:+ newline
                        +:+ string_of_list_byte (removelast msg))]),
   Returns tt).
Proof. intros F. exact (print_info_run w p boot_image F). Qed.

Lemma main_report_true p w data :
  file_at w p data -> length data = 512%nat ->
  take 4 data = bytes_lit "NXOB" ->
  data !! 510%nat = Some x55 -> data !! 511%nat = Some xaa ->
  exists out,
    main_report p true w =
    (printed w (line (check_mark +:+ " Boot image created successfully")
                :: out), Returns tt).
Proof.
  intros F Hl Hm Hlo Hhi. unfold main_report.
  rewrite bind_print. cbv beta. rewrite bind_print. cbv beta.
  rewrite printed_printed.
  match goal with
  | |- context [print_info p ?w'] =>
      destruct (print_info_valid w' p data F Hl Hm Hlo Hhi) as (v & c & ->)
  end.
  rewrite printed_printed. eexists. reflexivity.
Qed.

Lemma main_report_false p w :
  main_report p false w =
  (printed w [line (ballot_x +:+ " Boot image verification failed")],
   Raises (SystemExit 1)).
Proof. reflexivity. Qed.

End Report.

Section Growth.

Lemma only_new_dirs_refl w : only_new_dirs w w.
Proof. repeat split. intros loc. now left. Qed.

Lemma only_new_dirs_trans w1 w2 w3 :
  only_new_dirs w1 w2 -> only_new_dirs w2 w3 -> only_new_dirs w1 w3.
Proof.
  intros (C1 & S1 & T1) (C2 & S2 & T2).
  split; [congruence|]. split; [congruence|]. intros loc.
  destruct (T1 loc) as [E1|[N1 D1]], (T2 loc) as [E2|[N2 D2]].
  - left. congruence.
  - right. split; congruence.
  - right. split; congruence.
  - congruence.
Qed.

Lemma ret_adds_dirs {A} (a : A) : adds_dirs (ret a).
Proof. intros w. apply only_new_dirs_refl. Qed.

Lemma raise_adds_dirs {A} e : adds_dirs (@raise A e).
Proof. intros w. apply only_new_dirs_refl. Qed.

Lemma bind_adds_dirs {A B} (m : M A) (k : A -> M B) :
  adds_dirs m -> (forall a, adds_dirs (k a)) -> adds_dirs (bind m k).
Proof.
  intros Hm Hk w. rewrite bind_run. specialize (Hm w).
  destruct (m w) as [w1 [a|e]]; simpl in *; [|assumption].
  eapply only_new_dirs_trans; [eassumption|apply Hk].
Qed.

Lemma try_except_adds_dirs {A} (m : M A) h :
  adds_dirs m -> (forall e k, h e = Some k -> adds_dirs k) ->
  adds_dirs (try_except m h).
Proof.
  intros Hm Hh w. unfold try_except. specialize (Hm w).
  destruct (m w) as [w1 [a|e]]; simpl in *; [assumption|].
  destruct (h e) as [k|] eqn:E; [|assumption].
  eapply only_new_dirs_trans; [eassumption|]. apply (Hh e k E).
Qed.

Lemma os_stat_adds_dirs p : adds_dirs (os_stat p).
Proof.
  intros w. destruct (os_stat_run p w) as [[n ->]|(e & -> & _)];
    apply only_new_dirs_refl.
Qed.

Lemma path_exists_adds_dirs p : adds_dirs (path_exists p).
Proof.
  intros w. destruct (path_exists_run p w) as [ex ->].
  apply only_new_dirs_refl.
Qed.

Lemma path_isdir_adds_dirs p : adds_dirs (path_isdir p).
Proof.
  intros w. destruct (path_isdir_run p w) as [d ->].
  apply only_new_dirs_refl.
Qed.

Lemma os_mkdir_adds_dirs p : adds_dirs (os_mkdir p).
Proof.
  intros w. unfold os_mkdir.
  destruct (resolve w p) as [loc|e]; [|apply only_new_dirs_refl].
  destruct (tree w !! loc) as [n|] eqn:E; [apply only_new_dirs_refl|].
  destruct (tree w !! List.tl loc) as [[|d]|]; try apply only_new_dirs_refl.
  simpl. repeat split. intros loc'.
  destruct (decide (loc = loc')) as [<-|Hne].
  - right. split; [exact E|apply lookup_insert_eq].
  - left. now apply lookup_insert_ne.
Qed.

(** [os.makedirs] makes directories and nothing else, whether it returns
    or raises. *)
Lemma makedirs_fuel_adds_dirs fuel : forall name exist_ok,
  adds_dirs (makedirs_fuel fuel name exist_ok).
Proof.
  induction fuel as [|fuel IH]; intros name exist_ok;
    [apply raise_adds_dirs|].
  cbn [makedirs_fuel].
  destruct (path_split name) as [h t].
  destruct (if negb (truthy t) then path_split h else (h, t)) as [h' t'].
  assert (Hmake : adds_dirs
    (try_except (os_mkdir name)
       (fun e =>
          match e with
          | OSError _ =>
              Some (if negb exist_ok then raise e
                    else let! d := path_isdir name in
                         if negb d then raise e else ret tt)
          | _ => None
          end))).
  { apply try_except_adds_dirs; [apply os_mkdir_adds_dirs|].
    intros e k Hk. destruct e; try discriminate. injection Hk as <-.
    destruct (negb exist_ok); [apply raise_adds_dirs|].
    apply bind_adds_dirs; [apply path_isdir_adds_dirs|].
    intros d. destruct (negb d); [apply raise_adds_dirs|apply ret_adds_dirs]. }
  apply bind_adds_dirs.
  - destruct (truthy h' && truthy t'); [|apply ret_adds_dirs].
    apply bind_adds_dirs; [apply path_exists_adds_dirs|].
    intros ex. apply ret_adds_dirs.
  - intros [|]; [|exact Hmake].
    apply bind_adds_dirs.
    + apply try_except_adds_dirs; [apply IH|].
      intros e k Hk. destruct e as [[]| | | | |]; try discriminate.
      injection Hk as <-. apply ret_adds_dirs.
    + intros _. case_decide; [apply ret_adds_dirs|exact Hmake].
Qed.

Lemma makedirs_adds_dirs name exist_ok : adds_dirs (makedirs name exist_ok).
Proof. intros w. apply makedirs_fuel_adds_dirs. Qed.

(** What a call of [create_boot_image] has done, whatever its outcome:
    some directories made, and then, if it returns, the file written. *)
Lemma create_boot_image_steps p w w' r :
  create_boot_image p w = (w', r) ->
  exists w1, only_new_dirs w w1 /\
    ((exists e, r = Raises e /\ w' = w1) \/
     (exists loc,
        r = Returns p /\ resolve w1 p = Returns loc /\
        tree w1 !! loc <> Some Dir /\
        w' = set_tree w1 (<[loc := File boot_image]> (tree w1)))).
Proof.
  intros E. rewrite create_boot_image_unfold, bind_run in E.
  pose proof (makedirs_adds_dirs (path_dirname p) true w) as G.
  destruct (makedirs _ _ w) as [w1 [[]|e]]; simpl in G;
    [|injection E as <- <-; exists w1; eauto].
  exists w1. split; [exact G|].
  rewrite bind_run in E. destruct (open_wb p w1) as [w2 [f|e]] eqn:O.
  - apply open_wb_returns in O as (R & Hf & ->).
    rewrite bind_run, file_write_fresh in E. injection E as <- <-.
    right. eauto 8.
  - injection E as <- <-. left. exists e. split; [reflexivity|].
    unfold open_wb in O. destruct (resolve w1 p) as [loc|e1];
      [|congruence].
    destruct (tree w1 !! loc) as [[|d]|]; try congruence.
    destruct (tree w1 !! List.tl loc) as [[|d]|]; congruence.
Qed.

End Growth.

Section Outcomes.

Lemma printed_nil w : printed w [] = w.
Proof. destruct w. unfold printed. simpl. now rewrite app_nil_r. Qed.

(** On a regular file [verify_image] returns, having printed at most one
    line. *)
Lemma verify_image_returns w p data :
  file_at w p data ->
  exists lines b, verify_image p w = (printed w lines, Returns b).
Proof.
  intros F.
  destruct (decide (length data = 512%nat)) as [Hl|Hl];
    [|rewrite (verify_image_size w p data F Hl); eauto].
  destruct (decide (take 4 data = bytes_lit "NXOB")) as [Hm|Hm];
    [|rewrite (verify_image_magic w p data F Hl Hm); eauto].
  destruct (lookup_lt_is_Some_2 data 510) as [lo Hlo]; [lia|].
  destruct (lookup_lt_is_Some_2 data 511) as [hi Hhi]; [lia|].
  rewrite (verify_image_signature w p data F lo hi Hl Hm Hlo Hhi).
  case_bool_decide; [|eauto].
  exists [], true. now rewrite printed_nil.
Qed.

(** What [open(path, 'rb')] raises is what both readers raise. *)
Lemma readers_open_error w p e :
  open_rb p w = (w, Raises e) ->
  verify_image p w = (w, Raises e) /\ print_info p w = (w, Raises e).
Proof.
  intros O. unfold verify_image, print_info. rewrite !bind_run, O. auto.
Qed.

Lemma decode_ascii_strict_ascii data :
  Forall (fun x => int_of_byte x < 128) data ->
  exists s, decode_ascii_strict data = Some s.
Proof.
  induction 1 as [|x data Hx _ [s IH]]; simpl; [eauto|].
  apply Z.ltb_lt in Hx. rewrite Hx, IH. eauto.
Qed.

Lemma decode_ascii_strict_not_ascii data :
  ~ Forall (fun x => int_of_byte x < 128) data ->
  decode_ascii_strict data = None.
Proof.
  induction data as [|x data IH]; simpl; intros H; [destruct H; constructor|].
  destruct (int_of_byte x <? 128) eqn:E; [|reflexivity].
  apply Z.ltb_lt in E. rewrite IH; [reflexivity|].
  intros HF. apply H. now constructor.
Qed.

End Outcomes.

Section DescribeErrors.

Variables (w : world) (p : string) (data : list byte).
Hypothesis readable : file_at w p data.

(** A magic that is not ASCII stops [print_info] after two lines. *)
Lemma print_info_magic_error :
  decode_ascii_strict (slice data 0 4) = None ->
  print_info p w =
  (printed w [line ("Image: " +:+ p);
              line ("Size: " +:+ str_of_int (len data) +:+ " bytes")],
   Raises UnicodeDecodeError).
Proof.
  intros Hm. destruct (open_rb_file _ _ _ readable) as (f & Ho & Hr).
  unfold print_info. rewrite bind_run, Ho, bind_run, Hr.
  repeat describe_step. reflexivity.
Qed.

(** A file without a byte 511 stops it at one of the four bytes it
    shows. *)
Lemma print_info_short magic :
  decode_ascii_strict (slice data 0 4) = Some magic ->
  data !! 511%nat = None ->
  exists hdr,
    (3 <= length hdr < 6)%nat /\
    print_info p w = (printed w hdr, Raises IndexError).
Proof.
  intros Hm H511. destruct (open_rb_file _ _ _ readable) as (f & Ho & Hr).
  unfold print_info. rewrite bind_run, Ho, bind_run, Hr.
  destruct (data !! 4%nat) as [version|] eqn:H4;
    destruct (data !! 6%nat) as [checksum|] eqn:H6;
    destruct (data !! 510%nat) as [lo|] eqn:H510;
    repeat describe_step;
    (eexists; split; [|reflexivity]; simpl; lia).
Qed.

End DescribeErrors.

Section Append.

Lemma append_nil s : EmptyString +:+ s = s.
Proof. reflexivity. Qed.

Lemma append_cons c a s : String c a +:+ s = String c (a +:+ s).
Proof. reflexivity. Qed.

End Append.

Ltac str_simpl :=
  repeat (progress (simpl; rewrite ?append_nil, ?append_cons)).

Section Paths.

Lemma append_empty s : s +:+ EmptyString = s.
Proof. induction s as [|c s IH]; str_simpl; congruence. Qed.

(** A path with a slash, cut at its last slash. *)
Lemma split_last_sep p :
  In sep (list_ascii_of_string p) ->
  exists a t, p = a +:+ String sep t /\ ~ In sep (list_ascii_of_string t).
Proof.
  induction p as [|c p IH]; str_simpl; [tauto|]. intros H.
  destruct (in_dec ascii_dec sep (list_ascii_of_string p)) as [Hin|Hno].
  - destruct (IH Hin) as (a & t & -> & Ht). exists (String c a), t. auto.
  - destruct H as [->|H]; [|tauto]. exists EmptyString, p. auto.
Qed.

Lemma rfind_char_last a t :
  ~ In sep (list_ascii_of_string t) ->
  rfind_char sep (a +:+ String sep t) = Z.of_nat (String.length a).
Proof.
  intros Ht. induction a as [|c a IH]; str_simpl.
  - rewrite rfind_char_absent by (intros x Hx ->; auto). reflexivity.
  - rewrite IH. destruct (0 <=? Z.of_nat (String.length a)) eqn:E;
      [lia|apply Z.leb_gt in E; lia].
Qed.

Lemma str_take_app_sep a c t :
  str_take (S (String.length a)) (a +:+ String c t) = a +:+ String c EmptyString.
Proof.
  induction a as [|x a IH]; [reflexivity|]. rewrite !append_cons.
  change (str_take (S (String.length (String x a))) (String x (a +:+ String c t)))
    with (String x (str_take (S (String.length a)) (a +:+ String c t))).
  now rewrite IH.
Qed.

Lemma truthy_app_sep a c t : truthy (a +:+ String c t) = true.
Proof. destruct a; reflexivity. Qed.

Lemma all_char_app_sep c a :
  all_char c (a +:+ String c EmptyString) = all_char c a.
Proof.
  induction a as [|x a IH]; str_simpl.
  - now rewrite Ascii.eqb_refl.
  - now rewrite IH.
Qed.

Lemma rstrip_char_app_sep c a :
  rstrip_char c (a +:+ String c EmptyString) = rstrip_char c a.
Proof.
  induction a as [|x a IH]; str_simpl.
  - now rewrite Ascii.eqb_refl.
  - now rewrite IH.
Qed.

(** [os.path.dirname] of a path with a slash. *)
Lemma path_dirname_slash a t :
  ~ In sep (list_ascii_of_string t) ->
  path_dirname (a +:+ String sep t) =
  if all_char sep a then a +:+ String sep EmptyString else rstrip_char sep a.
Proof.
  intros Ht. unfold path_dirname. rewrite rfind_char_last by assumption.
  replace (Z.to_nat (Z.of_nat (String.length a) + 1))
    with (S (String.length a)) by lia.
  rewrite str_take_app_sep, truthy_app_sep, all_char_app_sep.
  rewrite rstrip_char_app_sep. str_simpl.
  destruct (all_char sep a); reflexivity.
Qed.

Lemma all_char_str_repeat c k : all_char c (str_repeat c k) = true.
Proof. induction k as [|k IH]; str_simpl; [reflexivity|]. now rewrite Ascii.eqb_refl. Qed.

(** [rstrip] takes slashes off the end, and nothing else. *)
Lemma rstrip_char_spec c a :
  exists k, a = rstrip_char c a +:+ str_repeat c k.
Proof.
  induction a as [|x a [k IH]]; [exists 0%nat; reflexivity|]. str_simpl.
  destruct (rstrip_char c a) as [|y r] eqn:E.
  - rewrite append_nil in IH. destruct (Ascii.eqb_spec x c) as [->|Hne].
    + exists (S k). str_simpl. congruence.
    + exists k. str_simpl. congruence.
  - exists k. rewrite append_cons in IH. str_simpl. congruence.
Qed.

Lemma components_nonempty p : components p <> [].
Proof.
  destruct p as [|c p]; str_simpl; [discriminate|].
  destruct (Ascii.eqb c sep); [discriminate|].
  destruct (components p); discriminate.
Qed.

Lemma components_bare t :
  ~ In sep (list_ascii_of_string t) -> components t = [t].
Proof.
  induction t as [|c t IH]; str_simpl; intros H; [reflexivity|].
  destruct (Ascii.eqb_spec c sep) as [->|Hne]; [tauto|].
  rewrite IH by tauto. reflexivity.
Qed.

Lemma components_app a t :
  components (a +:+ String sep t) = components a ++ components t.
Proof.
  induction a as [|c a IH]; str_simpl.
  - reflexivity.
  - destruct (Ascii.eqb c sep); [now rewrite IH|].
    rewrite IH. pose proof (components_nonempty a) as Hne.
    destruct (components a); [congruence|reflexivity].
Qed.

Lemma components_str_repeat k :
  components (str_repeat sep k) = repeat EmptyString (S k).
Proof. induction k as [|k IH]; str_simpl; [reflexivity|]. now rewrite IH. Qed.

Lemma components_app_repeat a k :
  components (a +:+ str_repeat sep k) = components a ++ repeat EmptyString k.
Proof.
  destruct k as [|k]; str_simpl.
  - now rewrite append_empty, app_nil_r.
  - now rewrite components_app, components_str_repeat.
Qed.

Lemma walk_app t cs1 : forall cur cs2,
  walk t cur (cs1 ++ cs2) =
  match walk t cur cs1 with
  | Returns c => walk t c cs2
  | Raises e => Raises e
  end.
Proof.
  induction cs1 as [|c cs1 IH]; intros cur cs2; str_simpl; [reflexivity|].
  destruct (t !! cur) as [[|d]|]; try reflexivity.
  repeat case_decide; try apply IH.
  destruct (NAME_MAX <? Z.of_nat (String.length c)); [reflexivity|apply IH].
Qed.

Lemma walk_step_dir t cur c rest r :
  walk t cur (c :: rest) = Returns r -> t !! cur = Some Dir.
Proof. str_simpl. destruct (t !! cur) as [[|d]|]; [reflexivity|discriminate..]. Qed.

Lemma walk_empty_name t cur :
  t !! cur = Some Dir -> walk t cur [EmptyString] = Returns cur.
Proof. intros H. str_simpl. rewrite H. reflexivity. Qed.

Lemma walk_empty_names t k : forall cur r,
  walk t cur (repeat EmptyString k) = Returns r -> r = cur.
Proof.
  induction k as [|k IH]; intros cur r; str_simpl; [congruence|].
  destruct (t !! cur) as [[|d]|]; try discriminate. apply IH.
Qed.

Lemma has_nul_app a b : has_nul (a +:+ b) = has_nul a || has_nul b.
Proof.
  induction a as [|c a IH]; str_simpl; [reflexivity|].
  now rewrite IH, orb_assoc.
Qed.

Lemma has_nul_str_repeat k : has_nul (str_repeat sep k) = false.
Proof. induction k as [|k IH]; simpl; [reflexivity|exact IH]. Qed.

Lemma length_app a b :
  String.length (a +:+ b) = (String.length a + String.length b)%nat.
Proof. induction a as [|c a IH]; str_simpl; [reflexivity|]. now rewrite IH. Qed.

Lemma is_absolute_app_sep a x y :
  is_absolute (a +:+ String sep x) = is_absolute (a +:+ String sep y).
Proof. destruct a; reflexivity. Qed.

Lemma is_absolute_prefix a y :
  truthy a = true -> is_absolute (a +:+ y) = is_absolute a.
Proof. destruct a; [discriminate|reflexivity]. Qed.

(** The directory part of a path has no null byte when the path has
    none. *)
Lemma path_dirname_has_nul p :
  has_nul p = false -> has_nul (path_dirname p) = false.
Proof.
  intros Hn.
  destruct (in_dec ascii_dec sep (list_ascii_of_string p)) as [Hin|Hno];
    [|now rewrite path_dirname_bare by (intros x Hx ->; auto)].
  destruct (split_last_sep p Hin) as (a & t & -> & Ht).
  rewrite path_dirname_slash by assumption.
  rewrite has_nul_app in Hn. apply orb_false_iff in Hn as [Ha _].
  destruct (all_char sep a).
  - rewrite has_nul_app, Ha. reflexivity.
  - destruct (rstrip_char_spec sep a) as [k Hk]. rewrite Hk in Ha.
    rewrite has_nul_app in Ha. now apply orb_false_iff in Ha as [Hr _].
Qed.

Lemma path_dirname_length p :
  (String.length (path_dirname p) <= String.length p)%nat.
Proof. rewrite path_dirname_split. apply path_split_length. Qed.

(** Where a path leads, its directory part leads to a directory: the
    walk, from where it starts. *)
Lemma walk_dirname t (c0 : list string) p loc :
  walk t (if is_absolute p then [] else c0) (components p) = Returns loc ->
  truthy (path_dirname p) = true ->
  exists cur,
    walk t (if is_absolute (path_dirname p) then [] else c0)
      (components (path_dirname p)) = Returns cur /\
    t !! cur = Some Dir.
Proof.
  intros R HD.
  destruct (in_dec ascii_dec sep (list_ascii_of_string p)) as [Hin|Hno];
    [|rewrite path_dirname_bare in HD by (intros x Hx ->; auto);
      discriminate].
  destruct (split_last_sep p Hin) as (a & t0 & -> & Ht).
  rewrite path_dirname_slash in * by assumption.
  rewrite components_app, (components_bare t0), walk_app in R by assumption.
  destruct (walk t _ (components a)) as [cur|e] eqn:W; [|discriminate].
  pose proof (walk_step_dir _ _ _ _ _ R) as Hdir.
  exists cur. split; [|exact Hdir].
  destruct (all_char sep a) eqn:Hall.
  - rewrite (is_absolute_app_sep a EmptyString t0).
    rewrite components_app, walk_app, W. now apply walk_empty_name.
  - destruct (rstrip_char_spec sep a) as [k Hk].
    remember (rstrip_char sep a) as r eqn:Hr.
    assert (Habs : is_absolute (a +:+ String sep t0) = is_absolute r).
    { rewrite Hk, <- (is_absolute_prefix r (str_repeat sep k +:+ String sep t0))
        by assumption.
      f_equal. clear. induction r as [|x r IH]; str_simpl; [reflexivity|].
      now rewrite IH. }
    rewrite Habs in W. rewrite Hk, components_app_repeat, walk_app in W.
    destruct (walk t _ (components r)) as [c1|e] eqn:W1;
      [|discriminate].
    apply walk_empty_names in W. congruence.
Qed.

Lemma resolve_dirname w p loc :
  resolve w p = Returns loc -> truthy (path_dirname p) = true ->
  exists cur,
    resolve w (path_dirname p) = Returns cur /\ tree w !! cur = Some Dir.
Proof.
  intros R HD. apply resolve_returns in R as (Hn & Ht & Hl & W).
  destruct (walk_dirname _ _ _ _ W HD) as (cur & Wd & Td).
  exists cur. split; [|exact Td].
  rewrite resolve_walk; [exact Wd|now apply path_dirname_has_nul|exact HD|].
  pose proof (path_dirname_length p). lia.
Qed.

Lemma path_isdir_dir w p loc :
  resolve w p = Returns loc -> tree w !! loc = Some Dir ->
  path_isdir p w = (w, Returns true).
Proof.
  intros R T. unfold path_isdir, try_except. rewrite bind_run.
  unfold os_stat. rewrite R, T. reflexivity.
Qed.

Lemma path_exists_dir w p loc :
  resolve w p = Returns loc -> tree w !! loc = Some Dir ->
  path_exists p w = (w, Returns true).
Proof.
  intros R T. unfold path_exists, try_except. rewrite bind_run.
  unfold os_stat. rewrite R, T. reflexivity.
Qed.

End Paths.

Section Rebuild.

(** The [try: mkdir(name) except OSError: ...] statement of [makedirs]
    with [exist_ok=True], on a directory that exists. *)
Lemma mkdir_step_existing name w loc :
  resolve w name = Returns loc -> tree w !! loc = Some Dir ->
  try_except (os_mkdir name)
    (fun e =>
       match e with
       | OSError _ =>
           Some (let! d := path_isdir name in
                 if negb d then raise e else ret tt)
       | _ => None
       end) w = (w, Returns tt).
Proof.
  intros R T. unfold try_except, os_mkdir. rewrite R, T.
  rewrite bind_run, (path_isdir_dir w name loc R T). reflexivity.
Qed.

(** [os.makedirs(name, exist_ok=True)] on a directory that exists returns
    and changes nothing. *)
Lemma makedirs_existing name w loc :
  resolve w name = Returns loc -> tree w !! loc = Some Dir ->
  makedirs name true w = (w, Returns tt).
Proof.
  intros R T. unfold makedirs. cbn [makedirs_fuel].
  pose proof (path_dirname_split name) as Hd.
  destruct (path_split name) as [h t] eqn:Es. simpl in Hd.
  assert (Hh : truthy h = true ->
               exists cur, resolve w h = Returns cur /\ tree w !! cur = Some Dir).
  { intros Eh. rewrite <- Hd. apply (resolve_dirname w name loc R).
    now rewrite Hd. }
  destruct (truthy t) eqn:Et; cbn [negb].
  - rewrite bind_run. destruct (truthy h) eqn:Eh; cbn [andb]; rewrite ?Et.
    + destruct (Hh eq_refl) as (cur & Rh & Th).
      rewrite bind_run, (path_exists_dir w h cur Rh Th). cbn [negb].
      unfold ret at 1. now apply mkdir_step_existing with loc.
    + unfold ret at 1. now apply mkdir_step_existing with loc.
  - pose proof (path_dirname_split h) as Hd2.
    destruct (path_split h) as [h2 t2] eqn:Es2. simpl in Hd2.
    rewrite bind_run. destruct (truthy h2 && truthy t2) eqn:E2.
    + apply andb_true_iff in E2 as [E2 _].
      assert (Eh : truthy h = true).
      { destruct h; [|reflexivity]. vm_compute in Es2.
        injection Es2 as <- <-. discriminate. }
      destruct (Hh Eh) as (cur & Rh & Th).
      destruct (resolve_dirname w h cur Rh) as (cur2 & R2 & T2);
        [now rewrite Hd2|].
      rewrite Hd2 in R2.
      rewrite bind_run, (path_exists_dir w h2 cur2 R2 T2). cbn [negb].
      unfold ret at 1. now apply mkdir_step_existing with loc.
    + unfold ret at 1. now apply mkdir_step_existing with loc.
Qed.

Lemma set_tree_same w : set_tree w (tree w) = w.
Proof. now destruct w. Qed.

End Rebuild.

Section IntoDirectory.

Lemma walk_empty_names_dir t k cur :
  t !! cur = Some Dir -> walk t cur (repeat EmptyString k) = Returns cur.
Proof.
  intros H. induction k as [|k IH]; simpl; [reflexivity|]. now rewrite H.
Qed.

(** One step of the path walk over a plain name. *)
Lemma walk_name t cur c rest :
  t !! cur = Some Dir -> plain_name c ->
  walk t cur (c :: rest) = walk t (c :: cur) rest.
Proof.
  intros H (_ & _ & H0 & H1 & H2 & Hl). cbn [walk]. rewrite H.
  repeat (destruct (decide _); [congruence|]).
  destruct (Z.ltb_spec NAME_MAX (Z.of_nat (String.length c))); [lia|].
  reflexivity.
Qed.

(** From where the directory part leads, the path goes on with its last
    name. *)
Lemma walk_from_dirname t (c0 : list string) a t0 cur :
  ~ In sep (list_ascii_of_string t0) ->
  walk t (if is_absolute (path_dirname (a +:+ String sep t0)) then [] else c0)
    (components (path_dirname (a +:+ String sep t0))) = Returns cur ->
  t !! cur = Some Dir ->
  walk t (if is_absolute (a +:+ String sep t0) then [] else c0)
    (components (a +:+ String sep t0)) = walk t cur [t0].
Proof.
  intros Ht Rd Td. rewrite path_dirname_slash in Rd by assumption.
  rewrite components_app, (components_bare t0), walk_app by assumption.
  destruct (all_char sep a) eqn:Hall.
  - rewrite (is_absolute_app_sep a EmptyString t0) in Rd.
    rewrite components_app, walk_app in Rd.
    destruct (walk t _ (components a)) as [c1|e]; [|discriminate].
    apply (walk_empty_names _ 1) in Rd. now subst.
  - destruct (rstrip_char_spec sep a) as [k Hk].
    remember (rstrip_char sep a) as r eqn:Hr.
    assert (Tr : truthy r = true).
    { destruct r; [|reflexivity]. rewrite append_nil in Hk.
      rewrite Hk, all_char_str_repeat in Hall. discriminate. }
    assert (Habs : is_absolute (a +:+ String sep t0) = is_absolute r).
    { rewrite Hk. clear -Tr. destruct r; [discriminate|reflexivity]. }
    rewrite Habs. rewrite Hk at 1. rewrite components_app_repeat, walk_app, Rd.
    now rewrite walk_empty_names_dir.
Qed.

(** A path made of a directory part that leads to a directory, a slash
    and a plain name leads into that directory; [os.makedirs] has nothing
    to make for it. *)
Lemma resolve_into_directory w a t cur :
  plain_name t -> has_nul a = false ->
  Z.of_nat (String.length (a +:+ String sep t)) < PATH_MAX ->
  resolve w (path_dirname (a +:+ String sep t)) = Returns cur ->
  tree w !! cur = Some Dir ->
  resolve w (a +:+ String sep t) = Returns (t :: cur) /\
  makedirs (path_dirname (a +:+ String sep t)) true w = (w, Returns tt).
Proof.
  intros Hp Ha Hl Rd Td. split; [|now apply makedirs_existing with cur].
  pose proof Hp as (Ht & Hn & _).
  apply resolve_returns in Rd as (_ & _ & _ & Wd).
  rewrite resolve_walk; [| |apply truthy_app_sep|exact Hl].
  - rewrite (walk_from_dirname _ _ a t cur Ht Wd Td).
    now rewrite walk_name.
  - rewrite has_nul_app, Ha. simpl. exact Hn.
Qed.

(** What [open(path, 'wb')] and the write do where the path leads to
    something that is not a directory, in a directory. *)
Lemma write_image_run w p loc :
  resolve w p = Returns loc -> tree w !! List.tl loc = Some Dir ->
  tree w !! loc <> Some Dir ->
  (let! f := open_wb p in do! file_write f boot_image in ret p) w =
  (set_tree w (<[loc := File boot_image]> (tree w)), Returns p).
Proof.
  intros R Tp Tl. rewrite bind_run. unfold open_wb. rewrite R.
  destruct (tree w !! loc) as [[|d]|] eqn:E; [congruence| |].
  - rewrite bind_run, file_write_fresh. reflexivity.
  - rewrite Tp. rewrite bind_run, file_write_fresh. reflexivity.
Qed.

End IntoDirectory.

Section NewDirectory.

Lemma rstrip_char_bare t :
  ~ In sep (list_ascii_of_string t) -> rstrip_char sep t = t.
Proof.
  induction t as [|c t IH]; simpl; intros H; [reflexivity|].
  rewrite IH by tauto. destruct t; [|reflexivity].
  destruct (Ascii.eqb_spec c sep) as [->|Hne]; [tauto|reflexivity].
Qed.

Lemma all_char_bare t :
  ~ In sep (list_ascii_of_string t) -> t <> EmptyString ->
  all_char sep t = false.
Proof.
  destruct t as [|c t]; simpl; intros H Hne; [congruence|].
  destruct (Ascii.eqb_spec c sep) as [->|]; [tauto|reflexivity].
Qed.

Lemma is_absolute_bare t :
  ~ In sep (list_ascii_of_string t) -> is_absolute t = false.
Proof.
  destruct t as [|c t]; simpl; intros H; [reflexivity|].
  destruct (Ascii.eqb_spec c sep) as [->|]; [tauto|reflexivity].
Qed.

Lemma path_split_bare t :
  ~ In sep (list_ascii_of_string t) -> path_split t = (EmptyString, t).
Proof.
  intros H. unfold path_split.
  rewrite rfind_char_absent by (intros x Hx ->; auto). reflexivity.
Qed.

Lemma cons_neq {A} (x : A) (l : list A) : x :: l <> l.
Proof. intros E. apply (f_equal length) in E. simpl in E. lia. Qed.

Lemma plain_name_truthy d : plain_name d -> truthy d = true.
Proof. intros (_ & _ & H & _). destruct d; [congruence|reflexivity]. Qed.

(** The directory part of two plain names joined by a slash is the
    first. *)
Lemma path_dirname_two d t :
  plain_name d -> plain_name t -> path_dirname (d +:+ String sep t) = d.
Proof.
  intros (Hd & _ & D0 & _) (Ht & _).
  rewrite path_dirname_slash by assumption.
  now rewrite all_char_bare, rstrip_char_bare.
Qed.

Lemma path_two_length d t :
  plain_name d -> plain_name t ->
  Z.of_nat (String.length (d +:+ String sep t)) < PATH_MAX.
Proof.
  intros (_ & _ & _ & _ & _ & Ld) (_ & _ & _ & _ & _ & Lt).
  rewrite length_app. simpl. unfold NAME_MAX, PATH_MAX in *. lia.
Qed.

(** A plain name leads into the working directory. *)
Lemma resolve_plain d w :
  plain_name d -> tree w !! cwd w = Some Dir ->
  resolve w d = Returns (d :: cwd w).
Proof.
  intros Hp Tc. pose proof Hp as (Hd & Hn & _ & _ & _ & Hl).
  rewrite resolve_walk;
    [|assumption|now apply plain_name_truthy|unfold NAME_MAX, PATH_MAX in *; lia].
  rewrite is_absolute_bare, components_bare by assumption.
  now rewrite walk_name.
Qed.

(** [os.makedirs(d, exist_ok=True)] for a plain name that is absent from
    the working directory: one [mkdir]. *)
Lemma makedirs_one d w :
  plain_name d ->
  tree w !! cwd w = Some Dir -> tree w !! (d :: cwd w) = None ->
  makedirs d true w =
  (set_tree w (<[d :: cwd w := Dir]> (tree w)), Returns tt).
Proof.
  intros Hp Tc Td. pose proof Hp as (Hd & _).
  unfold makedirs. cbn [makedirs_fuel].
  rewrite path_split_bare by assumption.
  rewrite (plain_name_truthy d Hp). cbn [negb truthy andb].
  rewrite bind_run. unfold ret at 1.
  unfold try_except, os_mkdir.
  rewrite (resolve_plain d w Hp Tc), Td. cbn [List.tl].
  rewrite Tc. reflexivity.
Qed.

(** In a world that has just gained the directory d, the path d/t leads
    into it. *)
Lemma resolve_two_new d t w :
  plain_name d -> plain_name t ->
  tree w !! cwd w = Some Dir ->
  resolve (set_tree w (<[d :: cwd w := Dir]> (tree w))) (d +:+ String sep t)
  = Returns (t :: d :: cwd w).
Proof.
  intros Hd Ht Tc. pose proof Hd as (Sd & Nd & _). pose proof Ht as (St & Nt & _).
  rewrite resolve_walk;
    [|now rewrite has_nul_app, Nd|apply truthy_app_sep
     |now apply path_two_length].
  rewrite is_absolute_prefix by now apply plain_name_truthy.
  rewrite is_absolute_bare by assumption.
  rewrite components_app, !components_bare by assumption.
  cbn [tree cwd set_tree app].
  rewrite walk_name; try assumption.
  - rewrite walk_name; try assumption; [reflexivity|].
    apply lookup_insert_eq.
  - rewrite lookup_insert_ne by apply cons_neq. exact Tc.
Qed.

(** [create_boot_image] on d/t when the working directory has no entry
    d: the directory is made and the file written. *)
Lemma create_boot_image_make_directory w d t :
  plain_name d -> plain_name t ->
  tree w !! cwd w = Some Dir ->
  tree w !! (d :: cwd w) = None ->
  tree w !! (t :: d :: cwd w) <> Some Dir ->
  create_boot_image (d +:+ String sep t) w =
  (set_tree w (<[t :: d :: cwd w := File boot_image]>
                 (<[d :: cwd w := Dir]> (tree w))),
   Returns (d +:+ String sep t)).
Proof.
  intros Hd Ht Tc Td Tt.
  rewrite create_boot_image_unfold, bind_run.
  rewrite path_dirname_two, makedirs_one by assumption.
  set (w1 := set_tree w (<[d :: cwd w := Dir]> (tree w))).
  apply (write_image_run w1 _ (t :: d :: cwd w)).
  - now apply resolve_two_new.
  - apply lookup_insert_eq.
  - unfold w1. cbn [tree set_tree]. rewrite lookup_insert_ne; [exact Tt|].
    intros E. apply (cons_neq t (d :: cwd w)). now symmetry.
Qed.

(** [create_boot_image] on a path that leads into a directory that
    exists. *)
Lemma create_boot_image_existing_directory w a t cur :
  plain_name t -> has_nul a = false ->
  Z.of_nat (String.length (a +:+ String sep t)) < PATH_MAX ->
  resolve w (path_dirname (a +:+ String sep t)) = Returns cur ->
  tree w !! cur = Some Dir ->
  tree w !! (t :: cur) <> Some Dir ->
  create_boot_image (a +:+ String sep t) w =
  (set_tree w (<[t :: cur := File boot_image]> (tree w)),
   Returns (a +:+ String sep t)).
Proof.
  intros Hp Ha Hl Rd Td Tt.
  destruct (resolve_into_directory w a t cur Hp Ha Hl Rd Td) as [R Mk].
  rewrite create_boot_image_unfold, bind_run, Mk.
  now apply write_image_run.
Qed.

(** Two plain names, in a working directory where the first is a
    directory or absent and the second is not a directory: the call
    returns. *)
Lemma create_boot_image_two_names w d t :
  plain_name d -> plain_name t ->
  tree w !! cwd w = Some Dir ->
  tree w !! (d :: cwd w) = None \/ tree w !! (d :: cwd w) = Some Dir ->
  tree w !! (t :: d :: cwd w) <> Some Dir ->
  exists w',
    create_boot_image (d +:+ String sep t) w =
    (w', Returns (d +:+ String sep t)).
Proof.
  intros Hd Ht Tc [Td|Td] Tt.
  - rewrite create_boot_image_make_directory by assumption. eauto.
  - pose proof Hd as (_ & Nd & _).
    rewrite (create_boot_image_existing_directory w d t (d :: cwd w));
      eauto using path_two_length.
    rewrite path_dirname_two by assumption. now apply resolve_plain.
Qed.

End NewDirectory.

Section Rendering.

Lemma append_assoc a b c : (a +:+ b) +:+ c = a +:+ (b +:+ c).
Proof. induction a as [|x a IH]; str_simpl; [reflexivity|]. now rewrite IH. Qed.

Lemma digit_char_decimal d :
  0 <= d <= 9 ->
  String (digit_char false d) EmptyString = char_at "0123456789" d.
Proof.
  intros H.
  assert (d = 0 \/ d = 1 \/ d = 2 \/ d = 3 \/ d = 4 \/ d = 5 \/ d = 6 \/
          d = 7 \/ d = 8 \/ d = 9) as Hd by lia.
  repeat (destruct Hd as [->|Hd]; [reflexivity|]). now subst.
Qed.

Lemma decimal_text_app ds d :
  decimal_text (ds ++ [d]) = decimal_text ds +:+ char_at "0123456789" d.
Proof.
  induction ds as [|x ds IH]; cbn [decimal_text app].
  - now rewrite append_nil, append_empty.
  - now rewrite IH, append_assoc.
Qed.

Lemma decimal_value_app ds d :
  decimal_value (ds ++ [d]) = 10 * decimal_value ds + d.
Proof. unfold decimal_value. now rewrite fold_left_app. Qed.

(** The digits that [digits] puts in front of [acc] are the decimal
    digits of [n]. *)
Lemma digits_decimal fuel : forall n acc,
  (0 < fuel)%nat -> 0 <= n < 10 ^ Z.of_nat fuel ->
  exists ds,
    canonical_digits ds /\ decimal_value ds = n /\
    digits fuel 10 false n acc = decimal_text ds +:+ acc.
Proof.
  induction fuel as [|fuel IH]; intros n acc Hf Hn; [lia|].
  cbn [digits].
    assert (Hm : 0 <= n mod 10 <= 9) by (pose proof (Z.mod_pos_bound n 10); lia).
    pose proof (Z.div_mod n 10 ltac:(lia)) as Hdm.
    destruct (Z.eqb_spec (n / 10) 0) as [E|E].
    + exists [n mod 10]. assert (n mod 10 = n) as Hnn by lia.
      split; [split; [repeat constructor; lia|]|].
      * destruct (Z.eq_dec n 0) as [->|]; [now left|].
        right. exists (n mod 10), []. split; [reflexivity|lia].
      * split; [unfold decimal_value; simpl; lia|].
        cbn [decimal_text]. rewrite append_empty.
        now rewrite <- digit_char_decimal by assumption.
    + assert (Hq : 0 <= n / 10 < 10 ^ Z.of_nat fuel).
      { split; [apply Z.div_pos; lia|].
        apply Z.div_lt_upper_bound; [lia|].
        replace (10 * 10 ^ Z.of_nat fuel) with (10 ^ Z.of_nat (S fuel)); [lia|].
        rewrite Nat2Z.inj_succ, Z.pow_succ_r by lia. reflexivity. }
      assert (Hf' : (0 < fuel)%nat).
      { destruct fuel; [|lia]. simpl in Hq. lia. }
      destruct (IH (n / 10) (String (digit_char false (n mod 10)) acc) Hf' Hq)
        as (ds & [HF Hc] & Hv & Ht).
      exists (ds ++ [n mod 10]). split; [split|split].
      * apply Forall_app. split; [exact HF|repeat constructor; lia].
      * right. destruct Hc as [->|(d & r & -> & Hd)].
        -- unfold decimal_value in Hv. simpl in Hv. lia.
        -- exists d, (r ++ [n mod 10]). auto.
      * rewrite decimal_value_app. lia.
      * rewrite Ht, decimal_text_app, append_assoc.
        now rewrite <- digit_char_decimal by assumption.
Qed.

Lemma str_of_int_decimal n :
  0 <= n ->
  exists ds,
    canonical_digits ds /\ decimal_value ds = n /\
    str_of_int n = decimal_text ds.
Proof.
  intros Hn. unfold str_of_int, str_of_nonneg.
  destruct (Z.ltb_spec n 0) as [|_]; [lia|].
  destruct (digits_decimal (S (Z.to_nat (Z.log2 n))) n EmptyString)
    as (ds & Hc & Hv & Ht); [lia| |].
  - split; [exact Hn|].
    rewrite Nat2Z.inj_succ, Z2Nat.id by apply Z.log2_nonneg.
    destruct (Z.eq_dec n 0) as [->|Hne]; [reflexivity|].
    pose proof (Z.log2_spec n ltac:(lia)) as [_ Hlt].
    pose proof (Z.pow_le_mono_l 2 10 (Z.succ (Z.log2 n)) ltac:(lia)). lia.
  - exists ds. rewrite Ht, append_empty. auto.
Qed.

Lemma format_02X_hex x :
  format_02X (int_of_byte x) = hex_pair "0123456789ABCDEF" x.
Proof. destruct x; reflexivity. Qed.

Lemma ascii_of_byte_inj x y : ascii_of_byte x = ascii_of_byte y -> x = y.
Proof.
  intros H. apply (f_equal byte_of_ascii) in H.
  now rewrite !byte_of_ascii_of_byte in H.
Qed.

Lemma existsb_byte y data :
  existsb (fun x => Ascii.eqb (ascii_of_byte x) (ascii_of_byte y)) data
  = bool_decide (y ∈ data).
Proof.
  induction data as [|x data IH]; cbn [existsb].
  - symmetry. apply bool_decide_eq_false_2. apply not_elem_of_nil.
  - rewrite IH. destruct (Ascii.eqb_spec (ascii_of_byte x) (ascii_of_byte y))
      as [E|E]; cbn [orb].
    + apply ascii_of_byte_inj in E as ->. symmetry.
      apply bool_decide_eq_true_2. apply elem_of_cons. now left.
    + apply bool_decide_ext. rewrite elem_of_cons.
      split; [auto|]. intros [->|H]; [congruence|exact H].
Qed.

(** [repr] of bytes: the letter b, the quote, each byte as it reads in a
    literal, the quote. *)
Lemma bytes_repr_reads data :
  exists parts,
    Forall2 (escaped (literal_quote data)) data parts /\
    bytes_repr data =
    String "b"%char
      (String (literal_quote data)
         (String.concat EmptyString parts
          +:+ String (literal_quote data) EmptyString)).
Proof.
  assert (Hq : (if existsb (fun x => Ascii.eqb (ascii_of_byte x) "'"%char) data
                   && negb (existsb (fun x => Ascii.eqb (ascii_of_byte x)
                                               "034"%char) data)
                then "034"%char else "'"%char) = literal_quote data).
  { change "'"%char with (ascii_of_byte x27) at 1.
    change "034"%char with (ascii_of_byte x22) at 1.
    rewrite !existsb_byte. unfold literal_quote.
    repeat case_bool_decide; simpl; try reflexivity; tauto. }
  exists (map (repr_byte (literal_quote data)) data). split.
  - assert (Hc : literal_quote data = "'"%char \/ literal_quote data = "034"%char)
      by (unfold literal_quote; case_bool_decide; auto).
    generalize (literal_quote data) Hc. clear. intros q Hq.
    induction data as [|x data IH]; constructor; [|exact IH].
    clear IH. destruct Hq as [-> | ->]; destruct x;
      first [ apply escaped_backslash | apply escaped_tab
            | apply escaped_newline | apply escaped_return
            | apply escaped_quote; reflexivity
            | apply escaped_printable; vm_compute; intuition discriminate
            | apply escaped_hex; vm_compute; intuition discriminate ].
  - unfold bytes_repr. cbv zeta. rewrite Hq. reflexivity.
Qed.

End Rendering.

Section Diagnostics.

Lemma size_diagnostic_reads data :
  exists ds,
    canonical_digits ds /\ decimal_value ds = len data /\
    size_diagnostic data =
    "ERROR: Image size is " +:+ decimal_text ds +:+ " bytes (expected 512)".
Proof.
  destruct (str_of_int_decimal (len data)) as (ds & Hc & Hv & Ht);
    [unfold len; lia|].
  exists ds. unfold size_diagnostic. rewrite Ht. auto.
Qed.

Lemma magic_diagnostic_reads data :
  exists parts,
    Forall2 (escaped (literal_quote (take 4 data))) (take 4 data) parts /\
    magic_diagnostic data =
    "ERROR: RIFT magic is b"
    +:+ String (literal_quote (take 4 data))
          (String.concat EmptyString parts
           +:+ String (literal_quote (take 4 data)) " (expected NXOB)").
Proof.
  destruct (bytes_repr_reads (take 4 data)) as (parts & HF & E).
  exists parts. split; [exact HF|].
  unfold magic_diagnostic. rewrite E. str_simpl.
  now rewrite append_assoc.
Qed.

Lemma signature_diagnostic_reads lo hi :
  signature_diagnostic lo hi =
  "ERROR: Boot signature is " +:+ hex_pair "0123456789ABCDEF" lo
  +:+ hex_pair "0123456789ABCDEF" hi +:+ " (expected 55AA)".
Proof. unfold signature_diagnostic. now rewrite !format_02X_hex. Qed.

End Diagnostics.

Section Decode.

Lemma decode_ascii_replace_ascii data :
  Forall (fun x => int_of_byte x < 128) data ->
  decode_ascii_replace data = string_of_list_byte data.
Proof.
  induction 1 as [|x data Hx _ IH]; [reflexivity|]. cbn [decode_ascii_replace].
  destruct (Z.ltb_spec (int_of_byte x) 128); [|lia]. now rewrite IH.
Qed.

End Decode.

Section Check.

(** What the end of the main block does in a world where the output path
    leads to a file: the verification and then the [if] statement. *)
Lemma check_valid w p data :
  file_at w p data -> valid_image data ->
  exists out,
    (let! ok := verify_image p in main_report p ok) w =
    (printed w (line (check_mark +:+ " Boot image created successfully")
                :: out), Returns tt).
Proof.
  intros F (Hl & Hm & Hlo & Hhi). rewrite bind_run.
  rewrite (verify_image_signature w p data F x55 xaa) by assumption.
  rewrite bool_decide_eq_true_2 by auto.
  now apply (main_report_true p w data).
Qed.

Lemma check_invalid w p data :
  file_at w p data -> ~ valid_image data ->
  exists diag,
    (let! ok := verify_image p in main_report p ok) w =
    (printed w [line diag; line (ballot_x +:+ " Boot image verification failed")],
     Raises (SystemExit 1)).
Proof.
  intros F Hbad.
  assert (H : exists diag,
            verify_image p w = (printed w [line diag], Returns false)).
  { destruct (decide (length data = 512%nat)) as [Hl|Hl];
      [|rewrite (verify_image_size w p data F Hl); eexists; reflexivity].
    destruct (decide (take 4 data = bytes_lit "NXOB")) as [Hm|Hm];
      [|rewrite (verify_image_magic w p data F Hl Hm); eexists; reflexivity].
    destruct (lookup_lt_is_Some_2 data 510) as [lo Hlo]; [lia|].
    destruct (lookup_lt_is_Some_2 data 511) as [hi Hhi]; [lia|].
    rewrite (verify_image_signature w p data F lo hi) by assumption.
    rewrite bool_decide_eq_false_2; [eexists; reflexivity|].
    intros [-> ->]. apply Hbad. repeat split; assumption. }
  destruct H as [diag H]. exists diag.
  rewrite bind_run, H, main_report_false, printed_printed. reflexivity.
Qed.

End Check.

Section Limits.

(** An embedded null byte: [open] raises ValueError, after [os.makedirs]
    has made the directory. *)
Example create_boot_image_embedded_nul :
  exists w',
    create_boot_image ("img/a" +:+ String "000"%char "b") empty_world =
    (w', Raises ValueError) /\
    tree w' = <[ ["img"%string] := Dir ]> (tree empty_world).
Proof. eexists. split; vm_compute; reflexivity. Qed.

(** A name of 256 bytes: [open] raises OSError with ENAMETOOLONG. *)
Example create_boot_image_long_name :
  exists w',
    create_boot_image ("img/" +:+ str_repeat "a"%char 256) empty_world =
    (w', Raises (OSError ENAMETOOLONG)).
Proof. eexists. vm_compute. reflexivity. Qed.

(** More missing levels than [os.makedirs] can nest calls for:
    RecursionError, before any directory is made. *)
Example create_boot_image_recursion_limit :
  create_boot_image "a/b/c/d/x.img" shallow_world =
  (shallow_world, Raises RecursionError) /\
  exists w',
    create_boot_image "a/b/c/x.img" shallow_world = (w', Returns "a/b/c/x.img"%string).
Proof. split; [|eexists]; vm_compute; reflexivity. Qed.

End Limits.

(** * The claims *)




(** C3. After every call of [create_boot_image] that returns, the file at
    the output path is exactly 512 bytes long, its bytes 0-3 are the magic
    b'NXOB' and its bytes 510-511 are 0x55, 0xAA. *)
Theorem create_boot_image_invariant (w : world) (p : string) (w' : world)
    (r : string) :
  create_boot_image p w = (w', Returns r) ->
  exists data,
    file_at w' p data /\ length data = 512%nat /\
    take 4 data = bytes_lit "NXOB" /\
    data !! 510%nat = Some x55 /\ data !! 511%nat = Some xaa.
Proof.
  intros E. exists boot_image.
  split; [eapply create_boot_image_file, E|].
  repeat split; reflexivity.
Qed.

Lemma create_boot_image_invariant_witness :
  exists data,
    file_at (create_boot_image default_path empty_world).1 default_path data /\
    length data = 512%nat /\ take 4 data = bytes_lit "NXOB" /\
    data !! 510%nat = Some x55 /\ data !! 511%nat = Some xaa.
Proof.
  apply (create_boot_image_invariant empty_world default_path _ default_path).
  vm_compute. reflexivity.
Defined.

(** C7. In every file produced by [create_boot_image], each byte outside
    the populated regions (header at offsets 0-7, code at 8-36, message at
    0x60-0xFD, signature at 510-511) is zero. *)
Theorem create_boot_image_zero_fill (w : world) (p : string) (w' : world)
    (r : string) :
  create_boot_image p w = (w', Returns r) ->
  exists data,
    file_at w' p data /\ length data = 512%nat /\
    forall i : nat,
      (i < 512)%nat ->
      ~ ((i < 8) \/ (8 <= i < 8 + 29) \/ (0x60 <= i < 0x60 + 158) \/
         (510 <= i < 512))%nat ->
      data !! i = Some x00.
Proof.
  intros E. exists boot_image.
  split; [eapply create_boot_image_file, E|].
  split; [reflexivity|]. intros i Hi Hn.
  apply boot_image_gaps; [assumption|].
  unfold populated. change (length boot_code) with 29%nat.
  change (length msg) with 158%nat.
  repeat match goal with
         | |- context [(?a <? ?b)%nat] => destruct (Nat.ltb_spec a b)
         | |- context [(?a <=? ?b)%nat] => destruct (Nat.leb_spec a b)
         end; simpl; try reflexivity; exfalso; apply Hn; lia.
Qed.

Lemma create_boot_image_zero_fill_witness :
  exists data,
    file_at (create_boot_image default_path empty_world).1 default_path data /\
    length data = 512%nat /\
    forall i : nat,
      (i < 512)%nat ->
      ~ ((i < 8) \/ (8 <= i < 8 + 29) \/ (0x60 <= i < 0x60 + 158) \/
         (510 <= i < 512))%nat ->
      data !! i = Some x00.
Proof.
  apply (create_boot_image_zero_fill empty_world default_path _ default_path).
  vm_compute. reflexivity.
Defined.

(** C9. The content written does not depend on the input: any two calls
    of [create_boot_image] that return, in any two worlds and for any two
    output paths, leave the same 512 bytes in their files. *)
Theorem create_boot_image_independent (w1 : world) (p1 : string)
    (w1' : world) (r1 : string) (w2 : world) (p2 : string) (w2' : world)
    (r2 : string) :
  create_boot_image p1 w1 = (w1', Returns r1) ->
  create_boot_image p2 w2 = (w2', Returns r2) ->
  exists data,
    length data = 512%nat /\ file_at w1' p1 data /\ file_at w2' p2 data.
Proof.
  intros E1 E2. exists boot_image. split; [reflexivity|].
  split; eapply create_boot_image_file; eassumption.
Qed.

Lemma create_boot_image_independent_witness :
  exists data,
    length data = 512%nat /\
    file_at (create_boot_image default_path empty_world).1 default_path data /\
    file_at (create_boot_image "/boot/sector.bin" boot_world).1
      "/boot/sector.bin" data.
Proof.
  apply (create_boot_image_independent empty_world default_path _ default_path
           boot_world "/boot/sector.bin" _ "/boot/sector.bin");
    vm_compute; reflexivity.
Defined.

(** C2. For a readable file, [verify_image] returns True exactly when the
    length is 512, bytes 0-3 are b'NXOB' and bytes 510-511 are 0x55, 0xAA.
    The checks run in that order and the first one that fails decides the
    diagnostic: a wrong length gives the size line whatever the content, a
    wrong magic at the right length gives the magic line whatever the
    signature, and only then a wrong signature gives the signature line. *)
Theorem verify_image_checks (w : world) (p : string) (data : list byte) :
  file_at w p data ->
  let valid :=
    length data = 512%nat /\ take 4 data = bytes_lit "NXOB" /\
    data !! 510%nat = Some x55 /\ data !! 511%nat = Some xaa in
  ((exists w', verify_image p w = (w', Returns true)) <-> valid) /\
  (valid -> verify_image p w = (w, Returns true)) /\
  (length data <> 512%nat ->
   verify_image p w =
   (printed w [size_diagnostic data +:+ newline], Returns false)) /\
  (length data = 512%nat -> take 4 data <> bytes_lit "NXOB" ->
   verify_image p w =
   (printed w [magic_diagnostic data +:+ newline], Returns false)) /\
  (length data = 512%nat -> take 4 data = bytes_lit "NXOB" ->
   forall lo hi,
     data !! 510%nat = Some lo -> data !! 511%nat = Some hi ->
     ~ (lo = x55 /\ hi = xaa) ->
     verify_image p w =
     (printed w [signature_diagnostic lo hi +:+ newline], Returns false)).
Proof.
  intros F valid.
  assert (Hok : valid -> verify_image p w = (w, Returns true)).
  { intros (Hl & Hm & Hlo & Hhi).
    rewrite (verify_image_signature w p data F x55 xaa) by assumption.
    rewrite bool_decide_eq_true_2 by auto. reflexivity. }
  assert (Hsig : length data = 512%nat -> take 4 data = bytes_lit "NXOB" ->
            forall lo hi,
              data !! 510%nat = Some lo -> data !! 511%nat = Some hi ->
              ~ (lo = x55 /\ hi = xaa) ->
              verify_image p w =
              (printed w [signature_diagnostic lo hi +:+ newline], Returns false)).
  { intros Hl Hm lo hi Hlo Hhi Hn.
    rewrite (verify_image_signature w p data F lo hi) by assumption.
    rewrite bool_decide_eq_false_2 by assumption. reflexivity. }
  split; [split|].
  - intros [w' E]. subst valid.
    destruct (decide (length data = 512%nat)) as [Hl|Hl];
      [|rewrite (verify_image_size w p data F Hl) in E; discriminate].
    destruct (decide (take 4 data = bytes_lit "NXOB")) as [Hm|Hm];
      [|rewrite (verify_image_magic w p data F Hl Hm) in E; discriminate].
    destruct (lookup_lt_is_Some_2 data 510) as [lo Hlo]; [lia|].
    destruct (lookup_lt_is_Some_2 data 511) as [hi Hhi]; [lia|].
    destruct (decide (lo = x55 /\ hi = xaa)) as [[-> ->]|Hn]; [auto|].
    rewrite (Hsig Hl Hm lo hi Hlo Hhi Hn) in E. discriminate.
  - intros Hv. exists w. auto.
  - split; [exact Hok|]. split; [apply verify_image_size, F|].
    split; [apply verify_image_magic, F|exact Hsig].
Qed.

Lemma verify_image_checks_witness :
  file_at mutated_world "bad.img" mutated_image /\
  verify_image "bad.img" mutated_world =
  (printed mutated_world [signature_diagnostic x55 x00 +:+ newline],
   Returns false).
Proof.
  assert (F : file_at mutated_world "bad.img" mutated_image)
    by (eexists; split; reflexivity).
  split; [exact F|].
  destruct (verify_image_checks mutated_world "bad.img" mutated_image F)
    as (_ & _ & _ & _ & H).
  apply H; try reflexivity. intros [_ E]. discriminate E.
Defined.

(** C6. For a readable file that fails a check, [verify_image] raises
    nothing: it prints one line, the diagnostic of the first check that
    fails, and returns False.  A wrong length gives the size line with the
    length in decimal; a wrong magic at the right length gives the magic
    line with the first four bytes as a bytes literal; a wrong signature on
    an otherwise right file gives the signature line with bytes 510 and 511
    as two upper-case hexadecimal digits each.  Each line ends with the
    expected value. *)
Theorem verify_image_failure (w : world) (p : string) (data : list byte) :
  file_at w p data ->
  (length data <> 512%nat ->
   exists ds,
     canonical_digits ds /\ decimal_value ds = Z.of_nat (length data) /\
     verify_image p w =
     (printed w [line ("ERROR: Image size is " +:+ decimal_text ds
                       +:+ " bytes (expected 512)")],
      Returns false)) /\
  (length data = 512%nat -> take 4 data <> bytes_lit "NXOB" ->
   exists parts,
     Forall2 (escaped (literal_quote (take 4 data))) (take 4 data) parts /\
     verify_image p w =
     (printed w [line ("ERROR: RIFT magic is b"
                       +:+ String (literal_quote (take 4 data))
                             (String.concat EmptyString parts
                              +:+ String (literal_quote (take 4 data))
                                    " (expected NXOB)"))],
      Returns false)) /\
  (length data = 512%nat -> take 4 data = bytes_lit "NXOB" ->
   forall lo hi,
     data !! 510%nat = Some lo -> data !! 511%nat = Some hi ->
     ~ (lo = x55 /\ hi = xaa) ->
     verify_image p w =
     (printed w [line ("ERROR: Boot signature is "
                       +:+ hex_pair "0123456789ABCDEF" lo
                       +:+ hex_pair "0123456789ABCDEF" hi
                       +:+ " (expected 55AA)")],
      Returns false)).
Proof.
  intros F. split; [|split].
  - intros Hl. destruct (size_diagnostic_reads data) as (ds & Hc & Hv & E).
    exists ds. split; [exact Hc|]. split; [exact Hv|].
    rewrite (verify_image_size w p data F Hl), E. reflexivity.
  - intros Hl Hm. destruct (magic_diagnostic_reads data) as (parts & HF & E).
    exists parts. split; [exact HF|].
    rewrite (verify_image_magic w p data F Hl Hm), E. reflexivity.
  - intros Hl Hm lo hi Hlo Hhi Hn.
    rewrite (verify_image_signature w p data F lo hi) by assumption.
    rewrite bool_decide_eq_false_2 by assumption.
    rewrite signature_diagnostic_reads. reflexivity.
Qed.

Lemma verify_image_failure_witness :
  verify_image "bad.img" mutated_world =
  (printed mutated_world
     [line "ERROR: Boot signature is 5500 (expected 55AA)"], Returns false) /\
  (exists ds,
     canonical_digits ds /\ decimal_value ds = 1 /\
     verify_image "/boot/sector.bin" boot_world =
     (printed boot_world
        [line ("ERROR: Image size is " +:+ decimal_text ds
               +:+ " bytes (expected 512)")], Returns false)) /\
  (exists parts,
     Forall2 (escaped "'"%char) [x00; x58; x4f; x42] parts /\
     verify_image "defaced.img" defaced_world =
     (printed defaced_world
        [line ("ERROR: RIFT magic is b'" +:+ String.concat EmptyString parts
               +:+ "' (expected NXOB)")], Returns false)).
Proof.
  split; [|split].
  - destruct (verify_image_failure mutated_world "bad.img" mutated_image)
      as (_ & _ & H); [eexists; split; reflexivity|].
    apply (H eq_refl eq_refl x55 x00 eq_refl eq_refl).
    intros [_ E]. discriminate E.
  - destruct (verify_image_failure boot_world "/boot/sector.bin" [x01])
      as (H & _); [eexists; split; reflexivity|].
    apply H. discriminate.
  - destruct (verify_image_failure defaced_world "defaced.img" defaced_image)
      as (_ & H & _); [eexists; split; reflexivity|].
    apply H; [reflexivity|discriminate].
Defined.

(** C5, at the input where the code departs from it: for an output path
    with no directory part, whatever the world, [create_boot_image] makes
    no directory and writes no file; [os.makedirs('')] raises
    FileNotFoundError. *)
Theorem create_boot_image_bare_filename (w : world) (name : string) :
  ~ In sep (list_ascii_of_string name) ->
  create_boot_image name w = (w, Raises (OSError ENOENT)).
Proof.
  intros H. rewrite create_boot_image_unfold, bind_run.
  rewrite path_dirname_bare by (intros a Ha ->; auto).
  rewrite makedirs_empty. reflexivity.
Qed.

Lemma create_boot_image_bare_filename_witness :
  create_boot_image "mmuko-os.img" empty_world =
  (empty_world, Raises (OSError ENOENT)).
Proof.
  apply (create_boot_image_bare_filename empty_world "mmuko-os.img").
  unfold sep. simpl. intuition discriminate.
Defined.

(** C10. Neither [verify_image] nor [print_info] changes a file: whatever
    the path and the outcome, the file tree after the call is the tree
    before it (standard output alone grows). *)
Theorem readers_keep_files (w : world) (p : string) :
  same_files w (verify_image p w).1 /\ same_files w (print_info p w).1.
Proof.
  split.
  - revert w. change (keeps_files (verify_image p)).
    unfold verify_image. repeat frame_step.
  - revert w. change (keeps_files (print_info p)).
    unfold print_info. repeat frame_step.
Qed.

(** C4, amended.  For every file of at least 512 bytes whose first four
    bytes are ASCII, [print_info] returns, having printed the six header
    lines and then the message part.  When the first NUL byte at or after
    offset 0x60 lies beyond 0x60, the message part is one line, the bytes
    from 0x60 up to that NUL, the NUL excluded, which for ASCII bytes are
    printed as they are; when there is no NUL byte beyond 0x60, no message
    is printed, and none either when the byte at 0x60 itself is NUL.  On
    the image that [create_boot_image] builds, the message is the literal
    text at offset 0x60 up to its terminating NUL. *)
Theorem print_info_message (w : world) (p : string) (data : list byte) :
  file_at w p data ->
  Forall (fun x => int_of_byte x < 128) (take 4 data) ->
  (512 <= length data)%nat ->
  exists hdr out,
    length hdr = 6%nat /\
    print_info p w = (printed w (hdr ++ out), Returns tt) /\
    (forall k : nat,
       first_nul data 0x60 k -> (0x60 < k)%nat ->
       out = [line (newline +:+ "Boot Message:" +:+ newline +:+
                    decode_ascii_replace (take (k - 0x60) (drop 0x60 data)))] /\
       (Forall (fun x => int_of_byte x < 128) (take (k - 0x60) (drop 0x60 data)) ->
        out = [line (newline +:+ "Boot Message:" +:+ newline +:+
                     string_of_list_byte (take (k - 0x60) (drop 0x60 data)))])) /\
    ((forall j : nat, (0x60 < j)%nat -> data !! j <> Some NUL) -> out = []) /\
    (data !! 0x60%nat = Some NUL -> out = []) /\
    (data = boot_image ->
     out = [line (newline +:+ "Boot Message:" +:+ newline +:+
                  string_of_list_byte (removelast msg))]).
Proof.
  intros F Ha Hl. pose proof (print_info_run w p data F) as H.
  destruct (decode_ascii_strict_ascii _ Ha) as [magic Hm].
  change 4 with (Z.of_nat 4) in H. rewrite slice_from_0, Hm in H.
  destruct (lookup_lt_is_Some_2 data 4) as [v Hv]; [lia|].
  destruct (lookup_lt_is_Some_2 data 6) as [c Hc]; [lia|].
  destruct (lookup_lt_is_Some_2 data 510) as [lo Hlo]; [lia|].
  destruct (lookup_lt_is_Some_2 data 511) as [hi Hhi]; [lia|].
  rewrite Hv, Hc, Hlo, Hhi in H.
  exists (header_lines p data magic v c lo hi), (message_part data).
  split; [reflexivity|]. split; [exact H|]. split; [|split; [|split]].
  - intros k Hk Hlt. pose proof (message_part_first data k Hk Hlt) as E.
    split; [exact E|]. intros Hascii. rewrite E. unfold message_line.
    now rewrite decode_ascii_replace_ascii.
  - intros Hno. destruct (decide (data !! 0x60%nat = Some NUL)) as [E|E].
    + now apply message_part_at_start.
    + apply message_part_none. intros j Hj.
      destruct (decide (j = 0x60%nat)) as [->|]; [exact E|].
      apply Hno. lia.
  - apply message_part_at_start.
  - intros ->. reflexivity.
Qed.

Lemma print_info_message_witness :
  exists hdr,
    length hdr = 6%nat /\
    print_info "cut.img" cut_world =
    (printed cut_world
       (hdr ++ [line (newline +:+ "Boot Message:" +:+ newline +:+ "=== ")]),
     Returns tt).
Proof.
  destruct (print_info_message cut_world "cut.img" cut_image)
    as (hdr & out & Hl & E & Hfirst & _).
  - eexists. split; reflexivity.
  - repeat constructor.
  - vm_compute. lia.
  - exists hdr. split; [exact Hl|]. rewrite E.
    destruct (Hfirst 100%nat) as [_ Hout].
    + split; [lia|]. split; [reflexivity|]. intros j Hj.
      assert (Hc : (j = 96 \/ j = 97 \/ j = 98 \/ j = 99)%nat) by lia.
      destruct Hc as [-> | [-> | [-> | ->]]]; discriminate.
    + lia.
    + rewrite Hout; [reflexivity|]. vm_compute. repeat constructor.
Defined.

(** C4 as first stated fails: the first 300 bytes of a built image hold
    the whole message and its NUL byte, at offset 253, and [print_info]
    on such a file prints five header lines and no message: reading byte
    510 raises IndexError. *)
Lemma print_info_message_counterexample :
  bytes_find truncated_image [NUL] 0x60 = 253 /\
  print_info "short.img" truncated_world =
  (printed truncated_world
     [line "Image: short.img"; line "Size: 300 bytes";
      line "RIFT Magic: NXOB"; line "Version: 1"; line "Checksum: 0xFE"],
   Raises IndexError).
Proof. split; vm_compute; reflexivity. Qed.

(** C8. The main block uses at most one argument, the output path
    [sys.argv[1]], or the default path when there is none; further
    arguments are ignored.  Once the build has returned, what remains of
    the run is the verification of the output path and the final [if]
    statement.  Where the file at the output path passes the three checks,
    these print the success marker and the report, and the exit status is
    0; where it fails one, they print the diagnostic and then the failure
    marker, and the exit status is 1. *)
Theorem main_exit_status (argv : list string) (w : world) :
  let output :=
    if 1 <? len argv then nth 1 argv EmptyString else default_path in
  let check : M unit :=
    (let! ok := verify_image output in main_report output ok) in
  ((length argv <= 1)%nat -> output = default_path) /\
  (forall prog path rest, argv = prog :: path :: rest -> output = path) /\
  (forall w1 r,
     create_boot_image output
       (printed w [line "=== MMUKO-OS Boot Image Generator ===";
                   line ("Creating: " +:+ output)]) = (w1, Returns r) ->
     main argv w = check w1) /\
  (forall w1 data,
     file_at w1 output data -> valid_image data ->
     exit_status (check w1).2 = 0 /\
     exists out,
       check w1 =
       (printed w1 (line (check_mark +:+ " Boot image created successfully")
                    :: out), Returns tt)) /\
  (forall w1 data,
     file_at w1 output data -> ~ valid_image data ->
     exit_status (check w1).2 = 1 /\
     exists diag,
       check w1 =
       (printed w1 [line diag;
                    line (ballot_x +:+ " Boot image verification failed")],
        Raises (SystemExit 1))).
Proof.
  intros output check.
  split; [|split; [|split; [|split]]].
  - intros Hlen. subst output. destruct (1 <? len argv) eqn:E; [|reflexivity].
    apply Z.ltb_lt in E. unfold len in E. lia.
  - intros prog path rest ->. subst output.
    destruct (1 <? len (prog :: path :: rest)) eqn:E; [reflexivity|].
    apply Z.ltb_ge in E. unfold len in E. simpl length in E. lia.
  - intros w1 r E.
    change (main argv w) with
      ((do! print "=== MMUKO-OS Boot Image Generator ===" in
        do! print ("Creating: " +:+ output) in
        do! create_boot_image output in
        check) w).
    rewrite bind_print. cbv beta. rewrite bind_print. cbv beta.
    rewrite printed_printed, bind_run.
    change ([("=== MMUKO-OS Boot Image Generator ===" +:+ newline)%string] ++
            [(("Creating: " +:+ output) +:+ newline)%string])
      with [line "=== MMUKO-OS Boot Image Generator ===";
            line ("Creating: " +:+ output)].
    now rewrite E.
  - intros w1 data F Hv. destruct (check_valid w1 output data F Hv) as [out E].
    subst check. cbv beta. rewrite E. split; [reflexivity|]. eauto.
  - intros w1 data F Hv. destruct (check_invalid w1 output data F Hv) as [diag E].
    subst check. cbv beta. rewrite E. split; [reflexivity|]. eauto.
Qed.

Lemma main_exit_status_witness :
  exit_status (main ["build_img.py"%string] empty_world).2 = 0 /\
  (let! ok := verify_image "bad.img" in main_report "bad.img" ok) mutated_world =
  (printed mutated_world
     [line "ERROR: Boot signature is 5500 (expected 55AA)";
      line (ballot_x +:+ " Boot image verification failed")],
   Raises (SystemExit 1)) /\
  exit_status
    ((let! ok := verify_image "bad.img" in main_report "bad.img" ok)
       mutated_world).2 = 1.
Proof.
  split.
  - destruct (main_exit_status ["build_img.py"%string] empty_world)
      as (_ & _ & Hrun & Hok & _).
    rewrite (Hrun _ default_path eq_refl).
    refine (proj1 (Hok _ boot_image _ _)).
    + eexists. split; vm_compute; reflexivity.
    + repeat split.
  - destruct (main_exit_status ["build_img.py"; "bad.img"]%string mutated_world)
      as (_ & _ & _ & _ & Hbad).
    destruct (Hbad mutated_world mutated_image) as (Hs & diag & E).
    + eexists. split; reflexivity.
    + intros (_ & _ & _ & H). discriminate H.
    + split; [|exact Hs]. reflexivity.
Defined.

(** * Further properties of the program *)

(** X1. [create_boot_image] prints nothing and leaves the working
    directory; it never removes or changes a directory; and the only file
    whose content can differ after the call is the one the output path
    leads to, and only when the call returns.  A call that raises may have
    made directories, but the files are those of before, byte for byte. *)
Theorem create_boot_image_frame (w : world) (p : string) (w' : world)
    (r : outcome string) :
  create_boot_image p w = (w', r) ->
  stdout w' = stdout w /\ cwd w' = cwd w /\
  (forall loc, tree w !! loc = Some Dir -> tree w' !! loc = Some Dir) /\
  (forall loc d,
     tree w !! loc = Some (File d) ->
     tree w' !! loc = Some (File d) \/
     (r = Returns p /\ resolve w' p = Returns loc)) /\
  (forall loc d,
     tree w' !! loc = Some (File d) ->
     tree w !! loc = Some (File d) \/
     (r = Returns p /\ resolve w' p = Returns loc /\ d = boot_image)).
Proof.
  intros E. apply create_boot_image_steps in E as (w1 & (C & S & T) & H).
  destruct H as [(e & -> & ->)|(loc & -> & R & Hf & ->)].
  - split; [exact S|]. split; [exact C|]. split; [|split].
    + intros l Hl. destruct (T l) as [->|[N _]]; congruence.
    + intros l d Hl. left. destruct (T l) as [->|[N _]]; congruence.
    + intros l d Hl. left. destruct (T l) as [<-|[_ D]]; congruence.
  - pose proof (resolve_insert_file w1 loc boot_image p loc Hf R) as R'.
    split; [exact S|]. split; [exact C|]. simpl. split; [|split].
    + intros l Hl.
      assert (tree w1 !! l = Some Dir)
        by (destruct (T l) as [->|[N _]]; congruence).
      rewrite lookup_insert_ne; congruence.
    + intros l d Hl. destruct (decide (loc = l)) as [<-|Hne]; [right; auto|].
      left. rewrite lookup_insert_ne by assumption.
      destruct (T l) as [->|[N _]]; congruence.
    + intros l d. destruct (decide (loc = l)) as [<-|Hne].
      * rewrite lookup_insert_eq. intros [= <-]. right. auto.
      * rewrite lookup_insert_ne by assumption. intros Hl. left.
        destruct (T l) as [<-|[_ D]]; congruence.
Qed.

Lemma create_boot_image_frame_witness :
  stdout (create_boot_image "/boot/new.img" boot_world).1 = [] /\
  tree (create_boot_image "/boot/new.img" boot_world).1
    !! ["sector.bin"; "boot"]%string = Some (File [x01]).
Proof.
  destruct (create_boot_image_frame boot_world "/boot/new.img"
              (create_boot_image "/boot/new.img" boot_world).1
              (create_boot_image "/boot/new.img" boot_world).2)
    as (S & _ & _ & F & _).
  - now destruct (create_boot_image "/boot/new.img" boot_world).
  - split; [exact S|].
    destruct (F ["sector.bin"; "boot"]%string [x01]) as [H|[_ H]].
    + reflexivity.
    + exact H.
    + vm_compute in H. discriminate H.
Defined.

(** X2. [verify_image] looks at nothing but the length of the file, its
    bytes 0-3 and its bytes 510-511: two files that agree on these get the
    same verdict and the same diagnostic, whatever their other bytes, the
    version, checksum and flags of the header included. *)
Theorem verify_image_ignores_body (w1 : world) (p1 : string)
    (d1 : list byte) (w2 : world) (p2 : string) (d2 : list byte) :
  file_at w1 p1 d1 -> file_at w2 p2 d2 ->
  length d1 = length d2 -> take 4 d1 = take 4 d2 ->
  d1 !! 510%nat = d2 !! 510%nat -> d1 !! 511%nat = d2 !! 511%nat ->
  exists lines b,
    verify_image p1 w1 = (printed w1 lines, Returns b) /\
    verify_image p2 w2 = (printed w2 lines, Returns b).
Proof.
  intros F1 F2 Hlen Hmag Hlo Hhi.
  destruct (decide (length d1 = 512%nat)) as [Hl|Hl].
  - assert (Hl2 : length d2 = 512%nat) by congruence.
    destruct (decide (take 4 d1 = bytes_lit "NXOB")) as [Hm|Hm].
    + assert (Hm2 : take 4 d2 = bytes_lit "NXOB") by congruence.
      destruct (lookup_lt_is_Some_2 d1 510) as [lo Hlo1]; [lia|].
      destruct (lookup_lt_is_Some_2 d1 511) as [hi Hhi1]; [lia|].
      rewrite (verify_image_signature w1 p1 d1 F1 lo hi Hl Hm Hlo1 Hhi1).
      rewrite (verify_image_signature w2 p2 d2 F2 lo hi Hl2 Hm2)
        by congruence.
      case_bool_decide; [|eauto].
      exists [], true. now rewrite !printed_nil.
    + rewrite (verify_image_magic w1 p1 d1 F1 Hl Hm).
      rewrite (verify_image_magic w2 p2 d2 F2 Hl2) by congruence.
      unfold magic_diagnostic. rewrite Hmag. eauto.
  - rewrite (verify_image_size w1 p1 d1 F1 Hl).
    rewrite (verify_image_size w2 p2 d2 F2) by congruence.
    unfold size_diagnostic, len. rewrite Hlen. eauto.
Qed.

Lemma verify_image_ignores_body_witness :
  exists lines b,
    verify_image default_path (create_boot_image default_path empty_world).1 =
    (printed (create_boot_image default_path empty_world).1 lines, Returns b) /\
    verify_image "odd.img" tampered_world =
    (printed tampered_world lines, Returns b).
Proof.
  apply (verify_image_ignores_body _ default_path boot_image
           tampered_world "odd.img" tampered_image);
    try reflexivity; eexists; split; vm_compute; reflexivity.
Defined.

(** X3. A path that does not lead to a regular file makes [verify_image]
    and [print_info] raise what [open] raises, with nothing printed:
    ValueError for a path with a null byte, FileNotFoundError for a missing
    file, IsADirectoryError for a directory, the error of the path walk
    otherwise.  [verify_image] never answers False for such a path, and it
    raises nothing but that ValueError or an [OSError]: on a regular file
    it always returns. *)
Theorem readers_unreadable (w : world) (p : string) :
  (has_nul p = true ->
   verify_image p w = (w, Raises ValueError) /\
   print_info p w = (w, Raises ValueError)) /\
  (forall loc,
     resolve w p = Returns loc -> tree w !! loc = None ->
     verify_image p w = (w, Raises (OSError ENOENT)) /\
     print_info p w = (w, Raises (OSError ENOENT))) /\
  (forall loc,
     resolve w p = Returns loc -> tree w !! loc = Some Dir ->
     verify_image p w = (w, Raises (OSError EISDIR)) /\
     print_info p w = (w, Raises (OSError EISDIR))) /\
  (forall e,
     resolve w p = Raises e ->
     verify_image p w = (w, Raises e) /\ print_info p w = (w, Raises e)) /\
  (forall w' e,
     verify_image p w = (w', Raises e) ->
     ((e = ValueError /\ has_nul p = true) \/
      (has_nul p = false /\ exists en, e = OSError en)) /\
     w' = w /\
     forall data, ~ file_at w p data).
Proof.
  assert (H1 : forall loc,
            resolve w p = Returns loc -> tree w !! loc = None ->
            open_rb p w = (w, Raises (OSError ENOENT)))
    by (intros loc R T; unfold open_rb; now rewrite R, T).
  assert (H2 : forall loc,
            resolve w p = Returns loc -> tree w !! loc = Some Dir ->
            open_rb p w = (w, Raises (OSError EISDIR)))
    by (intros loc R T; unfold open_rb; now rewrite R, T).
  assert (H3 : forall e, resolve w p = Raises e -> open_rb p w = (w, Raises e))
    by (intros e R; unfold open_rb; now rewrite R).
  split; [|split; [|split; [|split]]].
  - intros Hn. apply readers_open_error, H3. unfold resolve. now rewrite Hn.
  - intros loc R T. apply readers_open_error. eauto.
  - intros loc R T. apply readers_open_error. eauto.
  - intros e R. now apply readers_open_error, H3.
  - intros w' e E.
    assert (Hno : forall data, ~ file_at w p data).
    { intros data F. destruct (verify_image_returns w p data F) as (l & b & Hb).
      congruence. }
    destruct (resolve w p) as [loc|e0] eqn:R.
    + apply resolve_returns in R as R'. destruct R' as (Hn & _).
      destruct (tree w !! loc) as [[|d]|] eqn:T.
      * destruct (readers_open_error w p _ (H2 loc eq_refl T)) as [V _].
        rewrite V in E. injection E as <- <-. eauto 6.
      * exfalso. apply (Hno d). exists loc. auto.
      * destruct (readers_open_error w p _ (H1 loc eq_refl T)) as [V _].
        rewrite V in E. injection E as <- <-. eauto 6.
    + destruct (readers_open_error w p _ (H3 e0 eq_refl)) as [V _].
      rewrite V in E. injection E as <- <-.
      split; [|auto]. eapply resolve_raises, R.
Qed.

Lemma readers_unreadable_witness :
  verify_image "img/mmuko-os.img" empty_world =
  (empty_world, Raises (OSError ENOENT)) /\
  verify_image "/boot" boot_world = (boot_world, Raises (OSError EISDIR)) /\
  print_info (String "a"%char (String "000"%char "b")) boot_world =
  (boot_world, Raises ValueError).
Proof.
  split; [|split].
  - destruct (readers_unreadable empty_world "img/mmuko-os.img")
      as (_ & _ & _ & H & _).
    apply (H (OSError ENOENT)). reflexivity.
  - destruct (readers_unreadable boot_world "/boot") as (_ & _ & H & _).
    apply (H ["boot"%string]); reflexivity.
  - destruct (readers_unreadable boot_world
                (String "a"%char (String "000"%char "b"))) as (H & _).
    apply H. reflexivity.
Defined.

(** X4. [print_info] does not need a valid image: on a regular file it
    returns exactly when the first four bytes are ASCII and the file has
    at least 512 bytes.  It raises UnicodeDecodeError after the two lines
    Image and Size when one of the first four bytes is not ASCII, and
    IndexError after three to five lines when the magic is ASCII and the
    file is shorter than 512 bytes. *)
Theorem print_info_outcome (w : world) (p : string) (data : list byte) :
  file_at w p data ->
  let ascii_magic :=
    Forall (fun x => int_of_byte x < 128) (take 4 data) in
  ((exists w', print_info p w = (w', Returns tt)) <->
   ascii_magic /\ (512 <= length data)%nat) /\
  (~ ascii_magic ->
   print_info p w =
   (printed w [line ("Image: " +:+ p);
               line ("Size: " +:+ str_of_int (len data) +:+ " bytes")],
    Raises UnicodeDecodeError)) /\
  (ascii_magic -> (length data < 512)%nat ->
   exists hdr,
     (3 <= length hdr < 6)%nat /\
     print_info p w = (printed w hdr, Raises IndexError)).
Proof.
  intros F ascii_magic.
  assert (Hslice : slice data 0 4 = take 4 data)
    by (change 4 with (Z.of_nat 4); apply slice_from_0).
  assert (Hbad : ~ ascii_magic ->
            print_info p w =
            (printed w [line ("Image: " +:+ p);
                        line ("Size: " +:+ str_of_int (len data) +:+ " bytes")],
             Raises UnicodeDecodeError)).
  { intros Hn. apply (print_info_magic_error w p data F).
    rewrite Hslice. now apply decode_ascii_strict_not_ascii. }
  assert (Hshort : ascii_magic -> (length data < 512)%nat ->
            exists hdr,
              (3 <= length hdr < 6)%nat /\
              print_info p w = (printed w hdr, Raises IndexError)).
  { intros Ha Hl. destruct (decode_ascii_strict_ascii _ Ha) as [magic Hm].
    apply (print_info_short w p data F magic); [now rewrite Hslice|].
    apply lookup_ge_None. lia. }
  split; [split|split; assumption].
  - intros [w' E].
    destruct (decide (Forall (fun x => int_of_byte x < 128) (take 4 data)))
      as [Ha|Hn]; [|rewrite (Hbad Hn) in E; discriminate].
    split; [exact Ha|].
    destruct (decide (512 <= length data)%nat) as [Hl|Hl]; [exact Hl|].
    destruct (Hshort Ha) as (hdr & _ & E'); [lia|].
    rewrite E' in E. discriminate.
  - intros [Ha Hl]. pose proof (print_info_run w p data F) as H.
    destruct (decode_ascii_strict_ascii _ Ha) as [magic Hm].
    rewrite Hslice, Hm in H.
    destruct (lookup_lt_is_Some_2 data 4) as [v Hv]; [lia|].
    destruct (lookup_lt_is_Some_2 data 6) as [c Hc]; [lia|].
    destruct (lookup_lt_is_Some_2 data 510) as [lo Hlo]; [lia|].
    destruct (lookup_lt_is_Some_2 data 511) as [hi Hhi]; [lia|].
    rewrite Hv, Hc, Hlo, Hhi in H. eauto.
Qed.

Lemma print_info_outcome_witness :
  exists w', print_info "bad.img" mutated_world = (w', Returns tt).
Proof.
  assert (F : file_at mutated_world "bad.img" mutated_image)
    by (eexists; split; reflexivity).
  destruct (print_info_outcome mutated_world "bad.img" mutated_image F)
    as ([_ H] & _).
  apply H. split; [|vm_compute; lia].
  repeat constructor.
Defined.

(** X5. Given a bare file name as its argument, the command-line program
    prints its banner and the Creating line, and is then stopped by the
    FileNotFoundError of [os.makedirs('')]: no file is written, no
    verification runs, neither marker is printed, and the exit status is
    1. *)
Theorem main_bare_filename (prog name : string) (rest : list string)
    (w : world) :
  ~ In sep (list_ascii_of_string name) ->
  main (prog :: name :: rest) w =
  (printed w [line "=== MMUKO-OS Boot Image Generator ===";
              line ("Creating: " +:+ name)],
   Raises (OSError ENOENT)) /\
  exit_status (main (prog :: name :: rest) w).2 = 1.
Proof.
  intros H.
  assert (E : main (prog :: name :: rest) w =
              (printed w [line "=== MMUKO-OS Boot Image Generator ===";
                          line ("Creating: " +:+ name)],
               Raises (OSError ENOENT))).
  { unfold main.
    destruct (1 <? len (prog :: name :: rest)) eqn:L;
      [|apply Z.ltb_ge in L; unfold len in L; simpl length in L; lia].
    cbn [nth]. rewrite bind_print. cbv beta. rewrite bind_print. cbv beta.
    rewrite printed_printed, bind_run, create_boot_image_unfold, bind_run.
    rewrite path_dirname_bare by (intros a Ha ->; auto).
    rewrite makedirs_empty. reflexivity. }
  rewrite E. split; reflexivity.
Qed.

Lemma main_bare_filename_witness :
  exit_status (main ["build_img.py"; "mmuko-os.img"]%string empty_world).2 = 1.
Proof.
  apply (main_bare_filename "build_img.py" "mmuko-os.img" [] empty_world).
  unfold sep. simpl. intuition discriminate.
Defined.

(** X6. Whenever the command-line program runs to its end, what it has
    printed is exactly: the banner, the Creating line, the success marker,
    an empty line, the six lines of the report (size 512, magic NXOB,
    version 1, checksum 0xFE, signature 0x55AA) and the boot message. *)
Theorem main_transcript (argv : list string) (w : world) :
  let output :=
    if 1 <? len argv then nth 1 argv EmptyString else default_path in
  (main argv w).2 = Returns tt ->
  stdout (main argv w).1 =
  stdout w ++
  [ line "=== MMUKO-OS Boot Image Generator ===";
    line ("Creating: " +:+ output);
    line (check_mark +:+ " Boot image created successfully");
    line EmptyString;
    line ("Image: " +:+ output);
    line "Size: 512 bytes";
    line "RIFT Magic: NXOB";
    line "Version: 1";
    line "Checksum: 0xFE";
    line "Boot Signature: 0x55AA";
    line (newline +:+ "Boot Message:" +:+ newline +:+
          string_of_list_byte (removelast msg)) ].
Proof.
  intros output.
  change (main argv w) with
    ((do! print "=== MMUKO-OS Boot Image Generator ===" in
      do! print ("Creating: " +:+ output) in
      do! create_boot_image output in
      let! ok := verify_image output in
      main_report output ok) w).
  rewrite bind_print. cbv beta. rewrite bind_print. cbv beta.
  rewrite printed_printed, bind_run.
  match goal with
  | |- context [create_boot_image output ?w0] =>
      destruct (create_boot_image output w0) as [w1 [r|e]] eqn:E
  end; [|discriminate].
  intros _.
  pose proof (create_boot_image_file _ _ _ _ E) as F.
  apply create_boot_image_steps in E as (w0 & (_ & S & _) & H).
  assert (S1 : stdout w1 = stdout w0).
  { destruct H as [(e & _ & ->)|(loc & _ & _ & _ & ->)]; reflexivity. }
  rewrite bind_run, (verify_image_boot_image w1 output F).
  unfold main_report. rewrite bind_print. cbv beta. rewrite bind_print.
  cbv beta. rewrite printed_printed.
  match goal with
  | |- context [print_info output ?w2] =>
      rewrite (print_info_boot_image w2 output F)
  end.
  rewrite printed_printed. simpl. rewrite S1, S. simpl.
  rewrite <- app_assoc. reflexivity.
Qed.

Lemma main_transcript_witness :
  stdout (main ["build_img.py"%string] empty_world).1 =
  [ line "=== MMUKO-OS Boot Image Generator ===";
    line ("Creating: " +:+ default_path);
    line (check_mark +:+ " Boot image created successfully");
    line EmptyString;
    line ("Image: " +:+ default_path);
    line "Size: 512 bytes";
    line "RIFT Magic: NXOB";
    line "Version: 1";
    line "Checksum: 0xFE";
    line "Boot Signature: 0x55AA";
    line (newline +:+ "Boot Message:" +:+ newline +:+
          string_of_list_byte (removelast msg)) ].
Proof.
  apply (main_transcript ["build_img.py"%string] empty_world).
  vm_compute. reflexivity.
Defined.

(** X7. After every call of [create_boot_image] that returns, the
    directory part of the output path is not empty and names a directory:
    [os.path.isdir(os.path.dirname(output_path))] holds. *)
Theorem create_boot_image_parent (w : world) (p : string) (w' : world)
    (r : string) :
  create_boot_image p w = (w', Returns r) ->
  truthy (path_dirname p) = true /\
  path_isdir (path_dirname p) w' = (w', Returns true).
Proof.
  intros E.
  apply create_boot_image_returns in E as (_ & w1 & loc & Mk & R & Hf & ->).
  assert (HD : truthy (path_dirname p) = true).
  { destruct (path_dirname p); [|reflexivity].
    rewrite makedirs_empty in Mk. discriminate. }
  split; [exact HD|].
  destruct (resolve_dirname w1 p loc R HD) as (cur & Rd & Td).
  apply (path_isdir_dir _ _ cur).
  - now apply resolve_insert_file.
  - simpl. rewrite lookup_insert_ne; congruence.
Qed.

Lemma create_boot_image_parent_witness :
  path_isdir "img" empty_world = (empty_world, Returns false) /\
  path_isdir "img" (create_boot_image default_path empty_world).1 =
  ((create_boot_image default_path empty_world).1, Returns true).
Proof.
  split; [reflexivity|].
  apply (create_boot_image_parent empty_world default_path _ default_path).
  vm_compute. reflexivity.
Defined.

(** X8. Building twice is building once: when [create_boot_image]
    returns, a second call with the same path on the resulting world
    returns too and leaves that world exactly as it is. *)
Theorem create_boot_image_idempotent (w : world) (p : string) (w' : world)
    (r : string) :
  create_boot_image p w = (w', Returns r) ->
  create_boot_image p w' = (w', Returns r).
Proof.
  intros E.
  apply create_boot_image_returns in E as (-> & w1 & loc & Mk & R & Hf & ->).
  assert (HD : truthy (path_dirname p) = true).
  { destruct (path_dirname p); [|reflexivity].
    rewrite makedirs_empty in Mk. discriminate. }
  destruct (resolve_dirname w1 p loc R HD) as (cur & Rd & Td).
  set (w' := set_tree w1 (<[loc := File boot_image]> (tree w1))).
  assert (R' : resolve w' p = Returns loc) by now apply resolve_insert_file.
  assert (T' : tree w' !! loc = Some (File boot_image))
    by apply lookup_insert_eq.
  rewrite create_boot_image_unfold, bind_run.
  rewrite (makedirs_existing (path_dirname p) w' cur).
  - rewrite bind_run. unfold open_wb. rewrite R', T'.
    rewrite bind_run, file_write_fresh.
    replace (<[loc := File boot_image]> (tree w')) with (tree w')
      by (symmetry; now apply insert_id).
    now rewrite set_tree_same.
  - now apply resolve_insert_file.
  - simpl. rewrite lookup_insert_ne; congruence.
Qed.

Lemma create_boot_image_idempotent_witness :
  create_boot_image default_path (create_boot_image default_path empty_world).1 =
  ((create_boot_image default_path empty_world).1, Returns default_path).
Proof.
  apply (create_boot_image_idempotent empty_world default_path).
  vm_compute. reflexivity.
Defined.

(** X9. Writing into a directory that exists.  Let the output path,
    shorter than [PATH_MAX] and free of null bytes, be a directory part, a
    slash and a plain name (not empty, not '.' or '..', of at most
    [NAME_MAX] bytes), and let the directory part lead to a directory.  If
    the path itself names a directory, [create_boot_image] raises
    IsADirectoryError and changes nothing; otherwise it returns the path,
    and the world differs only by that one file, created or replaced,
    which holds the boot image. *)
Theorem create_boot_image_into_directory (w : world) (a t : string)
    (cur : list string) :
  plain_name t -> has_nul a = false ->
  Z.of_nat (String.length (a +:+ String sep t)) < PATH_MAX ->
  resolve w (path_dirname (a +:+ String sep t)) = Returns cur ->
  tree w !! cur = Some Dir ->
  (tree w !! (t :: cur) = Some Dir ->
   create_boot_image (a +:+ String sep t) w = (w, Raises (OSError EISDIR))) /\
  (tree w !! (t :: cur) <> Some Dir ->
   create_boot_image (a +:+ String sep t) w =
   (set_tree w (<[t :: cur := File boot_image]> (tree w)),
    Returns (a +:+ String sep t))).
Proof.
  intros Hp Ha Hl Rd Td. split; intros Hloc.
  - destruct (resolve_into_directory w a t cur Hp Ha Hl Rd Td) as [R Mk].
    rewrite create_boot_image_unfold, bind_run, Mk, bind_run.
    unfold open_wb. rewrite R, Hloc. reflexivity.
  - now apply create_boot_image_existing_directory.
Qed.

Lemma create_boot_image_into_directory_witness :
  create_boot_image "/boot/new.img" boot_world =
  (set_tree boot_world
     (<[["new.img"; "boot"]%string := File boot_image]> (tree boot_world)),
   Returns "/boot/new.img"%string).
Proof.
  apply (create_boot_image_into_directory boot_world "/boot" "new.img"
           ["boot"%string]);
    first [ reflexivity | discriminate
          | unfold plain_name, sep, NAME_MAX; simpl;
            intuition (discriminate || lia) ].
Defined.

(** X10. Making the directory.  Let the output path be d/t for two plain
    names (without a slash or a null byte, neither empty nor '.' nor '..',
    of at most [NAME_MAX] bytes each), in a world whose working directory
    holds no entry d.  Then [create_boot_image] returns the path, and the
    world differs by exactly two nodes: the directory d and, in it, the
    file t with the boot image. *)
Theorem create_boot_image_new_directory (w : world) (d t : string) :
  plain_name d -> plain_name t ->
  tree w !! cwd w = Some Dir ->
  tree w !! (d :: cwd w) = None ->
  tree w !! (t :: d :: cwd w) <> Some Dir ->
  create_boot_image (d +:+ String sep t) w =
  (set_tree w (<[t :: d :: cwd w := File boot_image]>
                 (<[d :: cwd w := Dir]> (tree w))),
   Returns (d +:+ String sep t)).
Proof. apply create_boot_image_make_directory. Qed.

Lemma create_boot_image_new_directory_witness :
  create_boot_image default_path empty_world =
  (set_tree empty_world
     (<[["mmuko-os.img"; "img"]%string := File boot_image]>
        (<[["img"%string] := Dir]> (tree empty_world))),
   Returns default_path).
Proof.
  apply (create_boot_image_new_directory empty_world "img" "mmuko-os.img");
    first [ reflexivity | discriminate
          | unfold plain_name, sep, NAME_MAX; simpl;
            intuition (discriminate || lia) ].
Defined.
